(** * Radioactive-Source-2.0: the decay-fit scripts

    A shallow embedding of the fitting scripts [final_fit.py] (its main loop
    and its trailing "initial fits.py" section) and [Radioactive_Code.py].

    Conventions of the embedding:
    - a numpy [float64] value is a real number ([R]) and a one-dimensional
      array is a [list R]; rounding, infinities and NaN are not represented,
      except in [binary64], which takes the abundances in binary64;
    - a Python exception that the scripts can meet is a value of [exn];
      a computation that may raise returns [exn + A];
    - what a script prints and plots is a list of [event]s;
    - [scipy.optimize.curve_fit] is not part of the repository: its
      minimiser is a parameter of every definition that fits. *)

From Stdlib Require Import Reals Lra List String Bool Arith Lia.
Import ListNotations.
Local Open Scope R_scope.

(** ** Python values and exceptions *)

Definition array := list R.
Definition matrix := list (list R).

Inductive exn_class :=
| ValueError
| RuntimeError
| TypeError
| IndexError
| KeyError.

(** Every class above derives from [Exception], so [except Exception as e]
    catches all of them; [str(e)] is the message. *)
Record exn := Raise { exn_type : exn_class; exn_msg : string }.

Definition result (A : Type) : Type := (exn + A)%type.

Definition ret {A} (a : A) : result A := inr a.

Definition bind {A B} (m : result A) (k : A -> result B) : result B :=
  match m with
  | inl e => inl e
  | inr a => k a
  end.

Declare Scope py_scope.
Delimit Scope py_scope with py.
Notation "x <- m ;; k" := (bind m (fun x => k))
  (at level 61, m at next level, right associativity) : py_scope.
Notation "' p <- m ;; k" := (bind m (fun x => match x with p => k end))
  (at level 61, p pattern, m at next level, right associativity) : py_scope.
Local Open Scope py_scope.

(** Built-in [max(y)] and [min(y)] over a sequence. *)
Definition py_max (y : array) : result R :=
  match y with
  | [] => inl (Raise ValueError "max() arg is an empty sequence")
  | y0 :: ys => ret (fold_left Rmax ys y0)
  end.

Definition py_min (y : array) : result R :=
  match y with
  | [] => inl (Raise ValueError "min() arg is an empty sequence")
  | y0 :: ys => ret (fold_left Rmin ys y0)
  end.

(** [a, b, c = popt] and [a, b, c, d, e = popt]. *)
Definition unpack3 (p : list R) : result (R * R * R) :=
  match p with
  | [a; b; c] => ret (a, b, c)
  | _ => inl (Raise ValueError "wrong number of values to unpack")
  end.

Definition unpack5 (p : list R) : result (R * R * R * R * R) :=
  match p with
  | [a; b; c; d; e] => ret (a, b, c, d, e)
  | _ => inl (Raise ValueError "wrong number of values to unpack")
  end.

(** [f(x, *params)] for a model of three, respectively five, parameters. *)
Definition star3 (f : R -> R -> R -> R -> R) (x : R) (p : list R) : result R :=
  match p with
  | [a; b; c] => ret (f x a b c)
  | _ => inl (Raise TypeError "wrong number of positional arguments")
  end.

Definition star5 (f : R -> R -> R -> R -> R -> R -> R) (x : R) (p : list R)
  : result R :=
  match p with
  | [a; b; c; d; e] => ret (f x a b c d e)
  | _ => inl (Raise TypeError "wrong number of positional arguments")
  end.

(** ** numpy *)

(** [a.max()] and [a.min()]. *)
Definition np_max (a : array) : result R :=
  match a with
  | [] => inl (Raise ValueError
            "zero-size array to reduction operation maximum which has no identity")
  | a0 :: rest => ret (fold_left Rmax rest a0)
  end.

Definition np_min (a : array) : result R :=
  match a with
  | [] => inl (Raise ValueError
            "zero-size array to reduction operation minimum which has no identity")
  | a0 :: rest => ret (fold_left Rmin rest a0)
  end.

(** [np.clip(a, a_min, a_max)] on one entry; [None] leaves a side open. *)
Definition np_clip (a : R) (a_min a_max : option R) : R :=
  let lo := match a_min with Some m => Rmax a m | None => a end in
  match a_max with Some m => Rmin lo m | None => lo end.

(** [perr[i]]. *)
Definition index (a : array) (i : nat) : result R :=
  match nth_error a i with
  | Some v => ret v
  | None => inl (Raise IndexError "index out of bounds")
  end.

(** [np.diag(pcov)]. *)
Definition np_diag (m : matrix) : array :=
  map (fun i => nth i (nth i m []) 0) (seq 0 (List.length m)).

Fixpoint np_sum (a : array) : R :=
  match a with
  | [] => 0
  | x :: rest => x + np_sum rest
  end.

Definition np_mean (a : array) : R := np_sum a / INR (List.length a).

(** Elementwise operation on two arrays of one shape. *)
Fixpoint map2 (f : R -> R -> R) (a b : array) : array :=
  match a, b with
  | x :: a', y :: b' => f x y :: map2 f a' b'
  | _, _ => []
  end.

(** [np.sqrt(np.mean((y - yfit)**2))]. *)
Definition rmse_of (y yfit : array) : R :=
  sqrt (np_mean (map (fun d => d ^ 2) (map2 Rminus y yfit))).

(** The solver's box bounds hold [-np.inf] and [np.inf]. *)
Inductive bound :=
| NegInf
| Fin (r : R)
| PosInf.

Definition bound_le (a b : bound) : Prop :=
  match a, b with
  | NegInf, _ => True
  | _, PosInf => True
  | Fin x, Fin y => x <= y
  | _, _ => False
  end.

Definition in_bounds (p : list R) (bounds : list bound * list bound) : Prop :=
  Forall2 bound_le (fst bounds) (map Fin p) /\
  Forall2 bound_le (map Fin p) (snd bounds).

(** ** Constants and models ([final_fit.py], lines 21-31) *)

Definition LN2 : R := ln 2.

Definition model_single (t A tau c : R) : R :=
  A * exp (- t / tau) + c.

Definition model_double (t A1 tau1 A2 tau2 c : R) : R :=
  A1 * exp (- t / tau1) + A2 * exp (- t / tau2) + c.

(** [model] of [Radioactive_Code.py] (line 24) and of the "initial fits"
    section (line 212). *)
Definition model (x N0 tau c : R) : R :=
  N0 * exp (- x / tau) + c.

(** Weights for fitting: [sigma = np.sqrt(np.clip(y, 1, None))], the same
    line in all three fitting loops. *)
Definition weight (count : R) : R := sqrt (np_clip count (Some 1) None).

Definition sigma (y : array) : array := map weight y.

(** Time normalisation: [t = time / 1000.0]. *)
Definition ms_to_s (time : array) : array := map (fun x => x / 1000) time.

(** ** The fitting routine

    [scipy.optimize.curve_fit] is called by the scripts and defined outside
    the repository.  Its bounded weighted least-squares minimiser is taken
    as a parameter: from the model [f(x, *params)], the data, the initial
    guess, the weights and the box bounds it either raises or returns the
    estimate, the covariance computed with the weights taken as absolute
    uncertainties, and the chi-square of the weighted residuals. *)

Definition model_fn := R -> list R -> result R.
Definition box := (list bound * list bound)%type.

Record solution := Solution {
  sol_popt : list R;
  sol_pcov : matrix;
  sol_chisq : R
}.

Definition minimiser :=
  model_fn -> array -> array -> list R -> array -> box -> result solution.

Definition scale_cov (s : R) (pcov : matrix) : matrix :=
  map (map (fun v => v * s)) pcov.

(** Reduced chi-square of a fit of [n] parameters to [m] samples. *)
Definition reduced_chisq (chisq : R) (m n : nat) : R :=
  chisq / (INR m - INR n).

(** Modelled from the spec: [curve_fit] itself (scipy) is missing from the
    sources.  Section 4.1 step 4: the weights are treated either as absolute
    uncertainties (the covariance is returned as computed) or as relative
    ones (the covariance is rescaled by the reduced chi-square), selected by
    the caller's [absolute_sigma]; step 6: a failure of the solver is a
    failure of the call. *)
Definition curve_fit (least_squares : minimiser)
    (f : model_fn) (xdata ydata : array) (p0 : list R) (sigma : array)
    (absolute_sigma : bool) (bounds : box) : result (list R * matrix) :=
  s <- least_squares f xdata ydata p0 sigma bounds ;;
  ret (sol_popt s,
       if absolute_sigma then sol_pcov s
       else scale_cov (reduced_chisq (sol_chisq s)
                         (List.length ydata) (List.length p0)) (sol_pcov s)).

(** A minimiser honours its box when every estimate it returns lies in it. *)
Definition honours_bounds (least_squares : minimiser) : Prop :=
  forall f xdata ydata p0 sigma bounds s,
    least_squares f xdata ydata p0 sigma bounds = inr s ->
    in_bounds (sol_popt s) bounds.

(** ** Script runs

    A run is the list of what was printed and drawn, and the exception that
    ended the script if one escaped. *)

Definition run (event : Type) : Type := (list event * option exn)%type.

(** A [for] loop whose body may let an exception escape. *)
Fixpoint for_each {event X : Type} (body : X -> run event) (xs : list X)
  : run event :=
  match xs with
  | [] => ([], None)
  | x :: rest =>
      match body x with
      | (out, Some e) => (out, Some e)
      | (out, None) =>
          let (out', r) := for_each body rest in (out ++ out', r)
      end
  end.

(** Trailing statements of a script, reached only if nothing escaped. *)
Definition and_then {event : Type} (r : run event) (out : list event)
  : run event :=
  match r with
  | (tr, None) => (tr ++ out, None)
  | (tr, Some e) => (tr, Some e)
  end.

(** Python's [enumerate]. *)
Fixpoint enumerate_from {X : Type} (i : nat) (xs : list X) : list (nat * X) :=
  match xs with
  | [] => []
  | x :: rest => (i, x) :: enumerate_from (S i) rest
  end.

Definition enumerate {X : Type} (xs : list X) : list (nat * X) :=
  enumerate_from 0 xs.

(** ** [final_fit.py], main loop (lines 7-172) *)

Module final_fit.

Inductive fit_type :=
| single
| double.

(** The [FIT_TYPES] dictionary. *)
Definition FIT_TYPES (i : nat) : option fit_type :=
  match i with
  | 1%nat => Some single
  | 2%nat => Some single
  | 3%nat => Some double
  | 4%nat => Some double
  | _ => None
  end.

(** What step A finds for [single_channel_data_{i}.csv]: no file, a file
    whose reading raised, or the rows read as (time, signal). *)
Inductive csv_file :=
| NotFound
| Unreadable (e : exn)
| Rows (rows : list (R * R)).

Record single_fit := {
  A : R; tau : R; c : R; tau_err : R;
  t_half : R; t_half_err : R
}.

Record double_fit := {
  A1 : R; tau1 : R; A2 : R; tau2 : R; c_val : R; perr : array;
  t1_half : R; t1_half_err : R; t2_half : R; t2_half_err : R;
  abund1 : R; abund2 : R
}.

Inductive quantities :=
| Single (s : single_fit)
| Double (d : double_fit).

Record fit_result := {
  fitted : quantities;
  yfit : array;
  rmse : R
}.

Inductive event :=
| PrintProcessing (i : nat) (ft : fit_type)
| PrintNotFound (i : nat)
| PrintReadError (msg : string)
| PrintFit (r : fit_result)
| PlotDataAndFit (i : nat) (t y yfit : array) (label : quantities)
| PrintFitFailed (msg : string)
| PlotDataOnly (i : nat) (t y : array)
| SetTitle (i : nat) (ft : fit_type)
| Show.

(** The line printed by the [except] clause (line 163). *)
Definition is_fit_failed (ev : event) : bool :=
  match ev with
  | PrintFitFailed _ => true
  | _ => false
  end.

(** Lines 80-82: [amp_span], [c_guess], [duration]. *)
Definition data_scales (t y : array) : result (R * R * R) :=
  mx <- py_max y ;;
  mn <- py_min y ;;
  let amp_span := mx - mn in
  c_guess <- py_min y ;;
  tmx <- np_max t ;;
  tmn <- np_min t ;;
  let duration := tmx - tmn in
  ret (amp_span, c_guess, duration).

(** Lines 86 and 112: [p0]. *)
Definition p0 (ft : fit_type) (amp_span c_guess duration : R) : list R :=
  match ft with
  | single => [amp_span; duration / 3; c_guess]
  | double => [amp_span / 2; duration / 10; amp_span / 2; duration / 2; c_guess]
  end.

(** Lines 87 and 113: [bounds]. *)
Definition bounds (ft : fit_type) : box :=
  match ft with
  | single => ([Fin 0; Fin 0; NegInf], [PosInf; PosInf; PosInf])
  | double => ([Fin 0; Fin 0; Fin 0; Fin 0; NegInf],
               [PosInf; PosInf; PosInf; PosInf; PosInf])
  end.

Section fitting.

Variable least_squares : minimiser.

(** Lines 89-99: the single fit and its derived quantities. *)
Definition fit_single (t y sigma guess : array) : result fit_result :=
  '(popt, pcov) <- curve_fit least_squares (star3 model_single) t y guess
                     sigma true (bounds single) ;;
  '(A, tau, c) <- unpack3 popt ;;
  let perr := map sqrt (np_diag pcov) in
  tau_err <- index perr 1 ;;
  let t_half := tau * LN2 in
  let t_half_err := tau_err * LN2 in
  let yfit := map (fun ti => model_single ti A tau c) t in
  ret {| fitted := Single {| A := A; tau := tau; c := c; tau_err := tau_err;
                             t_half := t_half; t_half_err := t_half_err |};
         yfit := yfit;
         rmse := rmse_of y yfit |}.

(** Lines 115-132: the double fit and its derived quantities. *)
Definition fit_double (t y sigma guess : array) : result fit_result :=
  '(popt, pcov) <- curve_fit least_squares (star5 model_double) t y guess
                     sigma true (bounds double) ;;
  '(A1, tau1, A2, tau2, c_val) <- unpack5 popt ;;
  let perr := map sqrt (np_diag pcov) in
  let t1_half := tau1 * LN2 in
  perr1 <- index perr 1 ;;
  let t1_half_err := perr1 * LN2 in
  let t2_half := tau2 * LN2 in
  perr3 <- index perr 3 ;;
  let t2_half_err := perr3 * LN2 in
  let total_amp := A1 + A2 in
  let abund1 := (A1 / total_amp) * 100 in
  let abund2 := (A2 / total_amp) * 100 in
  let yfit := map (fun ti => model_double ti A1 tau1 A2 tau2 c_val) t in
  ret {| fitted := Double {| A1 := A1; tau1 := tau1; A2 := A2; tau2 := tau2;
                             c_val := c_val; perr := perr;
                             t1_half := t1_half; t1_half_err := t1_half_err;
                             t2_half := t2_half; t2_half_err := t2_half_err;
                             abund1 := abund1; abund2 := abund2 |};
         yfit := yfit;
         rmse := rmse_of y yfit |}.

Definition fit_with (ft : fit_type) (t y sigma guess : array)
  : result fit_result :=
  match ft with
  | single => fit_single t y sigma guess
  | double => fit_double t y sigma guess
  end.

(** The body of the [try] of step B, up to [rmse] (lines 80-149). *)
Definition fit (ft : fit_type) (t y sigma : array) : result fit_result :=
  '(amp_span, c_guess, duration) <- data_scales t y ;;
  fit_with ft t y sigma (p0 ft amp_span c_guess duration).

(** Steps B and C with the [except] clause and the aesthetics
    (lines 71-169). *)
Definition analyse (i : nat) (ft : fit_type) (rows : list (R * R))
  : list event :=
  let t := ms_to_s (map fst rows) in
  let y := map snd rows in
  let sigma := sigma y in
  match fit ft t y sigma with
  | inr r => [PrintFit r; PlotDataAndFit i t y (yfit r) (fitted r)]
  | inl e => [PrintFitFailed (exn_msg e); PlotDataOnly i t y]
  end ++ [SetTitle i ft].

(** One iteration of the main loop (lines 42-169). *)
Definition iteration (files : nat -> csv_file) (i : nat) : run event :=
  match FIT_TYPES i with
  | None => ([], Some (Raise KeyError "FIT_TYPES"))
  | Some ft =>
      (PrintProcessing i ft ::
       match files i with
       | NotFound => [PrintNotFound i]
       | Unreadable e => [PrintReadError (exn_msg e)]
       | Rows rows => analyse i ft rows
       end, None)
  end.

(** The script: [for i in range(1, 5)], then [plt.show()]. *)
Definition main (files : nat -> csv_file) : run event :=
  and_then (for_each (iteration files) (seq 1 4)) [Show].

End fitting.

End final_fit.

(** ** Rows of the four-channel files

    [Radioactive_Code.py] and the "initial fits" section read one time column
    and four count columns into parallel lists. *)

Record row5 := Row5 {
  Time : R;
  Channel_1 : R;
  Channel_2 : R;
  Channel_3 : R;
  Channel_4 : R
}.

Definition sources_of (rows : list row5) : list array :=
  [map Channel_1 rows; map Channel_2 rows;
   map Channel_3 rows; map Channel_4 rows].

(** What the two four-channel scripts report for one source. *)
Record source_fit := {
  N0 : R; tau : R; c : R;
  N0_err : R; tau_err : R; c_err : R;
  yfit : array;
  rmse : R
}.

(** [perr = np.sqrt(np.diag(pcov))], the two unpackings, [yfit] and [rmse]
    (lines 48-55 of [Radioactive_Code.py], 245-251 of [final_fit.py]). *)
Definition report (t y : array) (popt : list R) (pcov : matrix)
  : result source_fit :=
  let perr := map sqrt (np_diag pcov) in
  '(N0, tau, c) <- unpack3 popt ;;
  '(N0_err, tau_err, c_err) <- unpack3 perr ;;
  let yfit := map (fun x => model x N0 tau c) t in
  ret {| N0 := N0; tau := tau; c := c;
         N0_err := N0_err; tau_err := tau_err; c_err := c_err;
         yfit := yfit; rmse := rmse_of y yfit |}.

Definition bounds3 : box := ([Fin 0; Fin 0; NegInf], [PosInf; PosInf; PosInf]).

(** ** [Radioactive_Code.py] *)

Module Radioactive_Code.

Inductive event :=
| PrintSource (i : nat) (r : source_fit)
| PlotDataAndFit (i : nat) (t y yfit : array)
| Show.

(** Line 44. *)
Definition absolute_sigma : bool := false.

(** Lines 32-35: [p0]. *)
Definition p0 (t y : array) : result (list R) :=
  mx <- py_max y ;;
  mn <- py_min y ;;
  let N0_guess := mx - mn in
  tmx <- np_max t ;;
  tmn <- np_min t ;;
  let tau_guess := (tmx - tmn) / 3 in
  c_guess <- py_min y ;;
  ret [N0_guess; tau_guess; c_guess].

Section fitting.

Variable least_squares : minimiser.

(** Lines 32-55 of the loop body; nothing here is inside a [try]. *)
Definition fit (t y : array) : result source_fit :=
  guess <- p0 t y ;;
  let sigma := sigma y in
  '(popt, pcov) <- curve_fit least_squares (star3 model) t y guess sigma
                     absolute_sigma bounds3 ;;
  report t y popt pcov.

(** The loop body (lines 31-80). *)
Definition iteration (t : array) (iy : nat * array) : run event :=
  let (i, y) := iy in
  match fit t y with
  | inl e => ([], Some e)
  | inr r => ([PrintSource (i + 1) r; PlotDataAndFit i t y (yfit r)], None)
  end.

(** The script from the loaded rows on (lines 17-83). *)
Definition main (rows : list row5) : run event :=
  let time := map Time rows in
  let sources := sources_of rows in
  let t := ms_to_s time in
  and_then (for_each (iteration t) (enumerate sources)) [Show].

End fitting.

End Radioactive_Code.

(** ** [final_fit.py], section "initial fits.py" (lines 174-288) *)

Module initial_fits.

Inductive event :=
| PrintSource (i : nat) (r : source_fit)
| PlotDataAndFit (i : nat) (t y yfit : array)
| PrintFitFailed (i : nat) (msg : string)
| PlotDataOnly (i : nat) (t y : array)
| SetTitle (i : nat)
| Show.

(** Line 240. *)
Definition absolute_sigma : bool := true.

(** Line 226: [tau_guess], with its fallback; [t.max() - t.min()] is
    written twice there and has one value. *)
Definition tau_guess (t : array) : result R :=
  tmx <- np_max t ;;
  tmn <- np_min t ;;
  let span := tmx - tmn in
  ret (if Rlt_dec 0 span then span / 3 else 1).

(** Lines 224-228: [p0]; these lines precede the [try]. *)
Definition p0 (t y : array) : result (list R) :=
  mx <- py_max y ;;
  mn <- py_min y ;;
  let N0_guess := mx - mn in
  c_guess <- py_min y ;;
  tau_guess <- tau_guess t ;;
  ret [N0_guess; tau_guess; c_guess].

Section fitting.

Variable least_squares : minimiser.

(** The body of the [try], up to [rmse] (lines 236-251). *)
Definition fit (t y guess sigma : array) : result source_fit :=
  '(popt, pcov) <- curve_fit least_squares (star3 model) t y guess sigma
                     absolute_sigma bounds3 ;;
  report t y popt pcov.

(** The loop body (lines 222-285). *)
Definition iteration (t : array) (iy : nat * array) : run event :=
  let (i, y) := iy in
  match p0 t y with
  | inl e => ([], Some e)
  | inr guess =>
      let sigma := sigma y in
      (match fit t y guess sigma with
       | inr r => [PrintSource (i + 1) r; PlotDataAndFit i t y (yfit r)]
       | inl e => [PrintFitFailed (i + 1) (exn_msg e); PlotDataOnly i t y]
       end ++ [SetTitle (i + 1)], None)
  end.

(** The section from the loaded rows on (lines 202-288). *)
Definition main (rows : list row5) : run event :=
  let raw_time := map Time rows in
  let sources := sources_of rows in
  let t := ms_to_s raw_time in
  and_then (for_each (iteration t) (enumerate sources)) [Show].

End fitting.

End initial_fits.

(** ** CSV files as the scripts read them

    A CSV file is taken as its rows of fields, the form in which
    [csv.writer] gets them and [csv.reader] gives them back.  The text
    conversion [float] of a field is a parameter of the loaders: [None]
    stands for its [ValueError]. *)

From Stdlib Require DecimalString.

(** The value under a key of a [csv.DictReader] row: the field's text,
    [None] where the row was short, or the list of the fields in excess. *)
Inductive cell :=
| Text (s : string)
| NoneCell
| Rest (extra : list string).

(** A row, as the dictionary [csv.DictReader] yields: keys in insertion
    order; the key [None] is the one of the fields in excess. *)
Definition csv_row := list (option string * cell).

Definition key_eqb (a b : option string) : bool :=
  match a, b with
  | Some x, Some y => String.eqb x y
  | None, None => true
  | _, _ => false
  end.

(** [d[k] = v]. *)
Fixpoint dict_set (d : csv_row) (k : option string) (v : cell) : csv_row :=
  match d with
  | [] => [(k, v)]
  | (k', v') :: rest =>
      if key_eqb k' k then (k', v) :: rest else (k', v') :: dict_set rest k v
  end.

(** [row[key]]. *)
Fixpoint getitem (row : csv_row) (key : option string) : result cell :=
  match row with
  | [] => inl (Raise KeyError
                 match key with Some k => k | None => "None" end)
  | (k, v) :: rest => if key_eqb k key then ret v else getitem rest key
  end.

(** [list(row.keys())[i]]. *)
Definition key_at (row : csv_row) (i : nat) : result (option string) :=
  match nth_error (map fst row) i with
  | Some k => ret k
  | None => inl (Raise IndexError "list index out of range")
  end.

(** The dictionary [csv.DictReader] makes of one row of fields:
    [dict(zip(fieldnames, row))], then the fields in excess under [None],
    or [None] under the field names the row does not reach. *)
Definition dict_of (fieldnames fields : list string) : csv_row :=
  let d := fold_left (fun d kv => dict_set d (Some (fst kv)) (Text (snd kv)))
             (combine fieldnames fields) [] in
  let lf := List.length fieldnames in
  let lr := List.length fields in
  if (lf <? lr)%nat then dict_set d None (Rest (skipn lf fields))
  else fold_left (fun d k => dict_set d (Some k) NoneCell)
         (skipn lr fieldnames) d.

(** [csv.DictReader(file)]: [reader.fieldnames] is the first row of the
    file, if there is one, and the rows are the dictionaries of the rows
    after it, blank rows left out. *)
Definition DictReader (file : list (list string))
  : option (list string) * list csv_row :=
  match file with
  | [] => (None, [])
  | fieldnames :: rows =>
      (Some fieldnames,
       map (dict_of fieldnames)
         (filter (fun r => match r with [] => false | _ => true end) rows))
  end.

Definition is_ValueError (e : exn) : bool :=
  match exn_type e with
  | ValueError => true
  | _ => false
  end.

Definition is_KeyError (e : exn) : bool :=
  match exn_type e with
  | KeyError => true
  | _ => false
  end.

Section reading.

Variable float_of : string -> option R.

(** [float(row[key])] on what a row holds. *)
Definition py_float (v : cell) : result R :=
  match v with
  | Text s =>
      match float_of s with
      | Some x => ret x
      | None => inl (Raise ValueError "could not convert string to float")
      end
  | NoneCell =>
      inl (Raise TypeError
             "float() argument must be a string or a real number, not 'NoneType'")
  | Rest _ =>
      inl (Raise TypeError
             "float() argument must be a string or a real number, not 'list'")
  end.

Definition float_at (row : csv_row) (key : string) : result R :=
  c <- getitem row (Some key) ;;
  py_float c.

End reading.

(** *** [final_fit.py], step A (lines 16-18, 51-69) *)

Module final_fit_csv.

Definition COL_TIME : string := "Time".
Definition COL_SIGNAL : string := "Signal".

Section reading.

Variable float_of : string -> option R.

(** Lines 63-66: the signal, from [COL_SIGNAL] or, on [KeyError], from the
    second column. *)
Definition signal_of (row : csv_row) : result R :=
  match float_at float_of row COL_SIGNAL with
  | inr v => ret v
  | inl e =>
      if is_KeyError e then
        key <- key_at row 1 ;;
        c <- getitem row key ;;
        py_float float_of c
      else inl e
  end.

(** Lines 60-66: the loop over the rows; an exception leaves it. *)
Fixpoint read_rows (rows : list csv_row) (time_list signal_list : list R)
  : result (list R * list R) :=
  match rows with
  | [] => ret (time_list, signal_list)
  | row :: rest =>
      tv <- float_at float_of row COL_TIME ;;
      let time_list := time_list ++ [tv] in
      sv <- signal_of row ;;
      read_rows rest time_list (signal_list ++ [sv])
  end.

(** Lines 51-69 for one file: [None] when the file does not exist, else
    its rows.  After an exception the iteration is left with [continue], so
    the lists filled so far are dropped. *)
Definition load (file : option (list csv_row)) : final_fit.csv_file :=
  match file with
  | None => final_fit.NotFound
  | Some rows =>
      match read_rows rows [] [] with
      | inl e => final_fit.Unreadable e
      | inr (time_list, signal_list) =>
          final_fit.Rows (combine time_list signal_list)
      end
  end.

End reading.

End final_fit_csv.

(** *** [linearize_all.py], loading (lines 25-51) *)

Module linearize_all.

Section reading.

Variable float_of : string -> option R.

(** Lines 44-49: a [ValueError] skips the rest of the row's body, any other
    exception leaves the loop; the lists keep what was appended. *)
Fixpoint read_rows (time_col data_col : string) (rows : list csv_row)
    (time_list counts_list : list R) : (list R * list R) * option exn :=
  match rows with
  | [] => ((time_list, counts_list), None)
  | row :: rest =>
      match float_at float_of row time_col with
      | inl e =>
          if is_ValueError e
          then read_rows time_col data_col rest time_list counts_list
          else ((time_list, counts_list), Some e)
      | inr tv =>
          let time_list := time_list ++ [tv] in
          match float_at float_of row data_col with
          | inl e =>
              if is_ValueError e
              then read_rows time_col data_col rest time_list counts_list
              else ((time_list, counts_list), Some e)
          | inr dv =>
              read_rows time_col data_col rest time_list (counts_list ++ [dv])
          end
      end
  end.

(** Lines 36-51 on an existing file: the lists, and the exception that the
    outer [except] printed, if any. *)
Definition load (file : list (list string)) : (list R * list R) * option exn :=
  let (headers, rows) := DictReader file in
  match headers with
  | Some (time_col :: data_col :: _) => read_rows time_col data_col rows [] []
  | _ => (([], []), None)
  end.

End reading.

End linearize_all.

(** *** [linearize_single.py], loading (lines 9-29) *)

Module linearize_single.

Section reading.

Variable float_of : string -> option R.

(** Lines 23-25: nothing is caught here. *)
Fixpoint read_rows (time_col data_col : string) (rows : list csv_row)
    (time_list counts_list : list R) : result (list R * list R) :=
  match rows with
  | [] => ret (time_list, counts_list)
  | row :: rest =>
      tv <- float_at float_of row time_col ;;
      let time_list := time_list ++ [tv] in
      dv <- float_at float_of row data_col ;;
      read_rows time_col data_col rest time_list (counts_list ++ [dv])
  end.

(** Lines 13-25 on an existing file. *)
Definition load (file : list (list string)) : result (list R * list R) :=
  let (headers, rows) := DictReader file in
  match headers with
  | None => inl (Raise TypeError "'NoneType' object is not subscriptable")
  | Some [] => inl (Raise IndexError "list index out of range")
  | Some [_] => inl (Raise IndexError "list index out of range")
  | Some (time_col :: data_col :: _) => read_rows time_col data_col rows [] []
  end.

End reading.

End linearize_single.

(** *** The four-channel files ([Radioactive_Code.py] lines 7-15,
    [final_fit.py] lines 184-196) *)

Module four_channels.

Record columns := Columns {
  time_list : list R;
  s1 : list R;
  s2 : list R;
  s3 : list R;
  s4 : list R
}.

Section reading.

Variable float_of : string -> option R.

(** The loop over the rows, for the five column names of a script. *)
Fixpoint read_rows (kt k1 k2 k3 k4 : string) (rows : list csv_row)
    (acc : columns) : result columns :=
  match rows with
  | [] => ret acc
  | row :: rest =>
      tv <- float_at float_of row kt ;;
      v1 <- float_at float_of row k1 ;;
      v2 <- float_at float_of row k2 ;;
      v3 <- float_at float_of row k3 ;;
      v4 <- float_at float_of row k4 ;;
      read_rows kt k1 k2 k3 k4 rest
        (Columns (time_list acc ++ [tv]) (s1 acc ++ [v1]) (s2 acc ++ [v2])
           (s3 acc ++ [v3]) (s4 acc ++ [v4]))
  end.

Definition Radioactive_Code_load (file : list (list string)) : result columns :=
  read_rows "Time [ms]" "Source 1" "Source 2" "Source 3" "Source 4"
    (snd (DictReader file)) (Columns [] [] [] [] []).

Definition initial_fits_load (file : list (list string)) : result columns :=
  read_rows "Time" "Channel 1" "Channel 2" "Channel 3" "Channel 4"
    (snd (DictReader file)) (Columns [] [] [] [] []).

End reading.

(** The rows that the fitting loops of the two scripts work on. *)
Fixpoint rows_of (tl a b c d : list R) : list row5 :=
  match tl, a, b, c, d with
  | t0 :: tl', a0 :: a', b0 :: b', c0 :: c', d0 :: d' =>
      Row5 t0 a0 b0 c0 d0 :: rows_of tl' a' b' c' d'
  | _, _, _, _, _ => []
  end.

End four_channels.

(** ** The serial loggers

    A line is the text that [ser.readline().decode(errors='ignore')] gives
    (empty after a timeout).  Which characters are whitespace for
    [str.strip] and [str.split] is a parameter. *)

Section text.

Variable isspace : Ascii.ascii -> bool.

Definition is_empty (s : string) : bool :=
  match s with
  | EmptyString => true
  | String _ _ => false
  end.

Fixpoint lstrip (s : string) : string :=
  match s with
  | EmptyString => EmptyString
  | String ch rest => if isspace ch then lstrip rest else s
  end.

Fixpoint rstrip (s : string) : string :=
  match s with
  | EmptyString => EmptyString
  | String ch rest =>
      match rstrip rest with
      | EmptyString => if isspace ch then EmptyString else String ch EmptyString
      | kept => String ch kept
      end
  end.

(** [s.strip()]. *)
Definition strip (s : string) : string := rstrip (lstrip s).

(** [s.split()]: the maximal runs of characters that are not whitespace;
    [word] is the run being read. *)
Fixpoint split_from (word s : string) : list string :=
  match s with
  | EmptyString => if is_empty word then [] else [word]
  | String ch rest =>
      if isspace ch
      then (if is_empty word then split_from EmptyString rest
            else word :: split_from EmptyString rest)
      else split_from (word ++ String ch EmptyString) rest
  end.

Definition split (s : string) : list string := split_from EmptyString s.

End text.

(** [seq[i]] for a Python integer index. *)
Definition py_index {X : Type} (l : list X) (i : Z) : result X :=
  let n := Z.of_nat (List.length l) in
  let j := if (i <? 0)%Z then (i + n)%Z else i in
  if ((0 <=? j)%Z && (j <? n)%Z)%bool
  then match nth_error l (Z.to_nat j) with
       | Some x => ret x
       | None => inl (Raise IndexError "list index out of range")
       end
  else inl (Raise IndexError "list index out of range").

(** How a logging session ends: the port raises, or the user interrupts. *)
Inductive stop :=
| SerialException (msg : string)
| KeyboardInterrupt.

(** *** [read_all_from_arduino.py] *)

Module read_all_from_arduino.

Definition LOG_INTERVAL_SECONDS : nat := 1.

Definition HEADER : list string :=
  ["Time"%string; "Channel 1"%string; "Channel 2"%string;
   "Channel 3"%string; "Channel 4"%string].

Inductive event :=
| PrintConnected
| WriteRow (row : list string)
| Flush
| PrintLogging
| PrintLogged (row : list string)
| PrintIgnored (cols : list string)
| Sleep (seconds : nat)
| PrintSerialError (msg : string)
| PrintStopped
| ClosePort.

Section logging.

Variable isspace : Ascii.ascii -> bool.

(** One turn of the [while True] loop (lines 36-57) on the line read. *)
Definition on_line (line : string) : list event :=
  let raw_line := strip isspace line in
  (if is_empty raw_line then []
   else
     let cols := split isspace raw_line in
     if (5 <=? List.length cols)%nat
     then let data_row := firstn 5 cols in
          [WriteRow data_row; Flush; PrintLogged data_row]
     else [PrintIgnored cols])
  ++ (if (0 <? LOG_INTERVAL_SECONDS)%nat then [Sleep LOG_INTERVAL_SECONDS]
      else []).

(** [log_serial_data_to_csv] (lines 18-67): the port cannot be opened
    ([inl msg]), or the session runs over the lines read until it is
    stopped between two turns of the loop. *)
Definition log_serial_data_to_csv (session : string + list string * stop)
  : list event :=
  match session with
  | inl msg => [PrintSerialError msg]
  | inr (lines, how) =>
      [PrintConnected; WriteRow HEADER; PrintLogging]
      ++ flat_map on_line lines
      ++ match how with
         | SerialException msg => [PrintSerialError msg]
         | KeyboardInterrupt => [PrintStopped]
         end
      ++ [ClosePort]
  end.

End logging.

(** The file after the session: the rows written, in order. *)
Definition csv_file (out : list event) : list (list string) :=
  flat_map (fun ev => match ev with WriteRow row => [row] | _ => [] end) out.

End read_all_from_arduino.

(** *** [read_single_from_arduino.py] *)

Module read_single_from_arduino.

Definition LOG_INTERVAL_SECONDS : nat := 1.

(** Line 38: [['Time', f'Channel {channel_num}']]. *)
Definition header (channel_num : Z) : list string :=
  ["Time"%string;
   String.append "Channel "
     (DecimalString.NilZero.string_of_int (Z.to_int channel_num))].

Inductive event :=
| PrintChannelError
| PrintConnected
| WriteRow (row : list string)
| Flush
| PrintLogging
| PrintLogged (row : list string)
| PrintIgnored (cols : list string)
| Sleep (seconds : nat)
| PrintSerialError (msg : string)
| PrintStopped
| ClosePort.

Section logging.

Variable isspace : Ascii.ascii -> bool.

(** One turn of the [while True] loop (lines 43-68); an [IndexError] of
    [cols[channel_num]] would leave it. *)
Definition on_line (channel_num : Z) (line : string) : run event :=
  let raw_line := strip isspace line in
  let pause :=
    if (0 <? LOG_INTERVAL_SECONDS)%nat then [Sleep LOG_INTERVAL_SECONDS]
    else [] in
  if is_empty raw_line then (pause, None)
  else
    let cols := split isspace raw_line in
    if (5 <=? List.length cols)%nat
    then match (time_val <- py_index cols 0 ;;
                channel_val <- py_index cols channel_num ;;
                ret [time_val; channel_val]) with
         | inr data_row =>
             ([WriteRow data_row; Flush; PrintLogged data_row] ++ pause, None)
         | inl e => ([], Some e)
         end
    else ([PrintIgnored cols] ++ pause, None).

(** [log_serial_data_to_csv] (lines 22-78).  A channel outside 1..4 ends
    the script at once ([sys.exit()]); an exception that is neither of the
    two handled ones escapes after the port is closed. *)
Definition log_serial_data_to_csv (channel_num : Z)
    (session : string + list string * stop) : run event :=
  if ((channel_num <? 1)%Z || (4 <? channel_num)%Z)%bool
  then ([PrintChannelError], None)
  else
    match session with
    | inl msg => ([PrintSerialError msg], None)
    | inr (lines, how) =>
        match for_each (on_line channel_num) lines with
        | (out, Some e) =>
            ([PrintConnected; WriteRow (header channel_num); PrintLogging]
             ++ out ++ [ClosePort], Some e)
        | (out, None) =>
            ([PrintConnected; WriteRow (header channel_num); PrintLogging]
             ++ out
             ++ match how with
                | SerialException msg => [PrintSerialError msg]
                | KeyboardInterrupt => [PrintStopped]
                end
             ++ [ClosePort], None)
        end
    end.

End logging.

Definition csv_file (out : list event) : list (list string) :=
  flat_map (fun ev => match ev with WriteRow row => [row] | _ => [] end) out.

End read_single_from_arduino.

(** ** The abundances in binary64

    numpy evaluates lines 128-130 of [final_fit.py] in [float64].  Where
    rounding decides a property, the computation is taken as it is, over
    binary64 numbers. *)

From Stdlib Require PrimFloat.

Module binary64.

Import PrimFloat.

(** Lines 128-130: [total_amp], [abund1], [abund2]. *)
Definition abundances (A1 A2 : float) : float * float :=
  let total_amp := add A1 A2 in
  let abund1 := mul (div A1 total_amp) 100%float in
  let abund2 := mul (div A2 total_amp) 100%float in
  (abund1, abund2).

End binary64.

(** ** Notions used to state the properties *)

(** [m] is the largest, respectively smallest, entry of [l]. *)
Definition is_max (m : R) (l : array) : Prop :=
  In m l /\ forall x, In x l -> x <= m.

Definition is_min (m : R) (l : array) : Prop :=
  In m l /\ forall x, In x l -> m <= x.

(** Boolean test of [in_bounds]. *)
Definition bound_leb (a b : bound) : bool :=
  match a, b with
  | NegInf, _ => true
  | _, PosInf => true
  | Fin x, Fin y => if Rle_dec x y then true else false
  | _, _ => false
  end.

Fixpoint all2 (lo hi : list bound) : bool :=
  match lo, hi with
  | [], [] => true
  | a :: lo', b :: hi' => bound_leb a b && all2 lo' hi'
  | _, _ => false
  end.

Definition within (p : list R) (bounds : box) : bool :=
  all2 (fst bounds) (map Fin p) && all2 (map Fin p) (snd bounds).

(** Two minimisers for concrete runs: one that always raises [e], and one
    that returns the solution [s] whenever it lies in the box it is given
    and otherwise raises as scipy does for an infeasible start. *)
Definition failing_solver (e : exn) : minimiser :=
  fun _ _ _ _ _ _ => inl e.

Definition constant_solver (s : solution) : minimiser :=
  fun _ _ _ _ _ bounds =>
    if within (sol_popt s) bounds then inr s
    else inl (Raise ValueError "`x0` is infeasible.").

(** A square matrix with [v] in every entry. *)
Definition full (n : nat) (v : R) : matrix := repeat (repeat v n) n.

(** The estimate and the standard error of parameter [i] in a solution. *)
Definition estimate (s : solution) (i : nat) : R := nth i (sol_popt s) 0.

Definition std_err (s : solution) (i : nat) : R :=
  sqrt (nth i (nth i (sol_pcov s) []) 0).

(** The model handed to the solver for each fit type. *)
Definition model_of (ft : final_fit.fit_type) : model_fn :=
  match ft with
  | final_fit.single => star3 model_single
  | final_fit.double => star5 model_double
  end.

(** ** Sample data for concrete runs *)

Definition sample_rows : list (R * R) :=
  [(0, 100); (1000, 61); (2000, 37); (3000, 22); (4000, 14)].

Definition sample_t : array := ms_to_s (map fst sample_rows).
Definition sample_y : array := map snd sample_rows.

Definition sample_rows5 : list row5 :=
  map (fun p => Row5 (fst p) (snd p) (snd p) (snd p) (snd p)) sample_rows.

Definition single_solution : solution :=
  Solution [100; 2; -1] (full 3 4) 8.

Definition double_solution : solution :=
  Solution [30; 1; 70; 5; -1] (full 5 4) 8.

(** A row of which [linearize_all.py] keeps the time and skips the count:
    the time converts and the count raises [ValueError]. *)
Definition torn (float_of : string -> option R) (time_col data_col : string)
    (row : csv_row) : bool :=
  match float_at float_of row time_col, float_at float_of row data_col with
  | inr _, inl e => is_ValueError e
  | _, _ => false
  end.

(** The token lists of the lines that the loggers write: five tokens or
    more. *)
Definition accepted (isspace : Ascii.ascii -> bool) (lines : list string)
  : list (list string) :=
  filter (fun cols => (5 <=? List.length cols)%nat)
    (map (split isspace) lines).

(** A text conversion and a whitespace test for concrete runs. *)
Definition sample_float (s : string) : option R :=
  if String.eqb s "0" then Some 0
  else if String.eqb s "1000" then Some 1000
  else if String.eqb s "100" then Some 100
  else if String.eqb s "61" then Some 61
  else None.

Definition sample_isspace (ch : Ascii.ascii) : bool :=
  Ascii.eqb ch (Ascii.ascii_of_nat 32).

Definition sample_lines : list string :=
  ["0 100 61 100 61"%string; " 1000  61 100 61 100 "%string; "0 100"%string;
   ""%string].

(** Whether a text holds a whitespace character. *)
Fixpoint has_space (isspace : Ascii.ascii -> bool) (s : string) : bool :=
  match s with
  | EmptyString => false
  | String ch rest => isspace ch || has_space isspace rest
  end.

(** The two fields that [read_single_from_arduino.py] keeps of a token
    list. *)
Definition picked (channel_num : Z) (cols : list string) : list string :=
  [nth 0 cols EmptyString; nth (Z.to_nat channel_num) cols EmptyString].

(** * Properties *)

(** ** The exception monad *)

Lemma bind_inr {A B} (m : result A) (k : A -> result B) (b : B) :
  bind m k = inr b -> exists a, m = inr a /\ k a = inr b.
Proof.
  destruct m as [e | a]; simpl; intros H.
  - discriminate.
  - exists a. split; [reflexivity | exact H].
Qed.

Lemma bind_inl {A B} (m : result A) (k : A -> result B) (e : exn) :
  m = inl e -> bind m k = inl e.
Proof. intros ->. reflexivity. Qed.

Lemma unpack3_inr (p : list R) (a b c : R) :
  unpack3 p = inr (a, b, c) -> p = [a; b; c].
Proof.
  destruct p as [| x [| y [| z [| w p]]]]; simpl; intros H;
    try discriminate.
  inversion H. reflexivity.
Qed.

Lemma unpack5_inr (p : list R) (a b c d e : R) :
  unpack5 p = inr (a, b, c, d, e) -> p = [a; b; c; d; e].
Proof.
  destruct p as [| x1 [| x2 [| x3 [| x4 [| x5 [| x6 p]]]]]]; simpl; intros H;
    try discriminate.
  inversion H. reflexivity.
Qed.

(** ** Maxima and minima *)

Lemma fold_left_Rmax_ge (l : array) (a : R) : a <= fold_left Rmax l a.
Proof.
  revert a. induction l as [| x l IH]; intros a; simpl.
  - apply Rle_refl.
  - apply Rle_trans with (Rmax a x); [apply Rmax_l | apply IH].
Qed.

Lemma fold_left_Rmax_is_max (l : array) (a : R) :
  is_max (fold_left Rmax l a) (a :: l).
Proof.
  revert a. induction l as [| x l IH]; intros a; simpl.
  - split; [left; reflexivity |].
    intros y [<- | []]. apply Rle_refl.
  - destruct (IH (Rmax a x)) as [Hin Hub]. split.
    + destruct Hin as [Heq | Hin].
      * rewrite <- Heq. unfold Rmax. destruct (Rle_dec a x).
        -- right; left; reflexivity.
        -- left; reflexivity.
      * right; right; exact Hin.
    + intros y [<- | [<- | Hy]].
      * apply Rle_trans with (Rmax a x); [apply Rmax_l |].
        apply fold_left_Rmax_ge.
      * apply Rle_trans with (Rmax a x); [apply Rmax_r |].
        apply fold_left_Rmax_ge.
      * apply Hub. right; exact Hy.
Qed.

Lemma fold_left_Rmin_le (l : array) (a : R) : fold_left Rmin l a <= a.
Proof.
  revert a. induction l as [| x l IH]; intros a; simpl.
  - apply Rle_refl.
  - apply Rle_trans with (Rmin a x); [apply IH | apply Rmin_l].
Qed.

Lemma fold_left_Rmin_is_min (l : array) (a : R) :
  is_min (fold_left Rmin l a) (a :: l).
Proof.
  revert a. induction l as [| x l IH]; intros a; simpl.
  - split; [left; reflexivity |].
    intros y [<- | []]. apply Rle_refl.
  - destruct (IH (Rmin a x)) as [Hin Hlb]. split.
    + destruct Hin as [Heq | Hin].
      * rewrite <- Heq. unfold Rmin. destruct (Rle_dec a x).
        -- left; reflexivity.
        -- right; left; reflexivity.
      * right; right; exact Hin.
    + intros y [<- | [<- | Hy]].
      * apply Rle_trans with (Rmin a x); [| apply Rmin_l].
        apply fold_left_Rmin_le.
      * apply Rle_trans with (Rmin a x); [| apply Rmin_r].
        apply fold_left_Rmin_le.
      * apply Hlb. right; exact Hy.
Qed.

Lemma py_max_spec (y : array) :
  y <> [] -> exists m, py_max y = inr m /\ np_max y = inr m /\ is_max m y.
Proof.
  destruct y as [| y0 ys]; intros H; [contradiction H; reflexivity |].
  exists (fold_left Rmax ys y0). repeat split;
    apply fold_left_Rmax_is_max.
Qed.

Lemma py_min_spec (y : array) :
  y <> [] -> exists m, py_min y = inr m /\ np_min y = inr m /\ is_min m y.
Proof.
  destruct y as [| y0 ys]; intros H; [contradiction H; reflexivity |].
  exists (fold_left Rmin ys y0). repeat split;
    apply fold_left_Rmin_is_min.
Qed.

Lemma is_max_unique (l : array) (m1 m2 : R) :
  is_max m1 l -> is_max m2 l -> m1 = m2.
Proof.
  intros [Hi1 Hu1] [Hi2 Hu2]. apply Rle_antisym; auto.
Qed.

Lemma is_min_unique (l : array) (m1 m2 : R) :
  is_min m1 l -> is_min m2 l -> m1 = m2.
Proof.
  intros [Hi1 Hu1] [Hi2 Hu2]. apply Rle_antisym; auto.
Qed.

(** ** Standard errors *)

Lemma index_perr (pcov : matrix) (i : nat) (v : R) :
  index (map sqrt (np_diag pcov)) i = inr v ->
  (i < List.length pcov)%nat /\ v = sqrt (nth i (nth i pcov []) 0).
Proof.
  unfold index, np_diag.
  rewrite !nth_error_map, nth_error_seq.
  destruct (Nat.ltb_spec i (List.length pcov)) as [Hlt | Hge]; simpl;
    intros H; [| discriminate].
  split; [exact Hlt |]. inversion H. reflexivity.
Qed.

Lemma index_perr_lt (pcov : matrix) (i : nat) :
  (i < List.length pcov)%nat ->
  index (map sqrt (np_diag pcov)) i = inr (sqrt (nth i (nth i pcov []) 0)).
Proof.
  intros Hlt. unfold index, np_diag.
  rewrite !nth_error_map, nth_error_seq.
  destruct (Nat.ltb_spec i (List.length pcov)) as [_ | Hge]; [reflexivity | lia].
Qed.

Lemma scale_cov_length (s : R) (pcov : matrix) :
  List.length (scale_cov s pcov) = List.length pcov.
Proof. unfold scale_cov. apply length_map. Qed.

Lemma scale_cov_diag (s : R) (pcov : matrix) (i : nat) :
  nth i (nth i (scale_cov s pcov) []) 0 = nth i (nth i pcov []) 0 * s.
Proof.
  unfold scale_cov.
  set (f := fun v : R => v * s).
  change (nth i (map (map f) pcov) []) with (nth i (map (map f) pcov) (map f [])).
  rewrite (map_nth (map f) pcov [] i).
  replace 0 with (f 0) at 1 by (unfold f; ring).
  rewrite (map_nth f). reflexivity.
Qed.

(** ** What a successful fit is made of *)

Ltac bind_inv H :=
  let x := fresh "x" in
  let Hx := fresh "Hx" in
  apply bind_inr in H; destruct H as (x & Hx & H).

Lemma curve_fit_inr (ls : minimiser) (f : model_fn) (t y g sg : array)
    (abs : bool) (b : box) (popt : list R) (pcov : matrix) :
  curve_fit ls f t y g sg abs b = inr (popt, pcov) ->
  exists s, ls f t y g sg b = inr s /\ popt = sol_popt s /\
    pcov = if abs then sol_pcov s
           else scale_cov (reduced_chisq (sol_chisq s)
                             (List.length y) (List.length g)) (sol_pcov s).
Proof.
  unfold curve_fit. intros H. bind_inv H.
  exists x. inversion H. auto.
Qed.

Lemma fit_single_inr (ls : minimiser) (t y sg g : array)
    (r : final_fit.fit_result) :
  final_fit.fit_single ls t y sg g = inr r ->
  exists s a ta c te,
    ls (star3 model_single) t y g sg (final_fit.bounds final_fit.single)
      = inr s /\
    sol_popt s = [a; ta; c] /\
    index (map sqrt (np_diag (sol_pcov s))) 1 = inr te /\
    r = {| final_fit.fitted := final_fit.Single
             {| final_fit.A := a; final_fit.tau := ta; final_fit.c := c;
                final_fit.tau_err := te;
                final_fit.t_half := ta * LN2;
                final_fit.t_half_err := te * LN2 |};
           final_fit.yfit := map (fun ti => model_single ti a ta c) t;
           final_fit.rmse :=
             rmse_of y (map (fun ti => model_single ti a ta c) t) |}.
Proof.
  unfold final_fit.fit_single. intros H.
  bind_inv H. destruct x as [popt pcov].
  apply curve_fit_inr in Hx. destruct Hx as (s & Hs & -> & ->).
  bind_inv H. destruct x as [[a ta] c]. apply unpack3_inr in Hx.
  bind_inv H. inversion H.
  exists s, a, ta, c, x. auto.
Qed.

Lemma fit_double_inr (ls : minimiser) (t y sg g : array)
    (r : final_fit.fit_result) :
  final_fit.fit_double ls t y sg g = inr r ->
  exists s a1 ta1 a2 ta2 c e1 e3,
    ls (star5 model_double) t y g sg (final_fit.bounds final_fit.double)
      = inr s /\
    sol_popt s = [a1; ta1; a2; ta2; c] /\
    index (map sqrt (np_diag (sol_pcov s))) 1 = inr e1 /\
    index (map sqrt (np_diag (sol_pcov s))) 3 = inr e3 /\
    r = {| final_fit.fitted := final_fit.Double
             {| final_fit.A1 := a1; final_fit.tau1 := ta1;
                final_fit.A2 := a2; final_fit.tau2 := ta2;
                final_fit.c_val := c;
                final_fit.perr := map sqrt (np_diag (sol_pcov s));
                final_fit.t1_half := ta1 * LN2;
                final_fit.t1_half_err := e1 * LN2;
                final_fit.t2_half := ta2 * LN2;
                final_fit.t2_half_err := e3 * LN2;
                final_fit.abund1 := a1 / (a1 + a2) * 100;
                final_fit.abund2 := a2 / (a1 + a2) * 100 |};
           final_fit.yfit :=
             map (fun ti => model_double ti a1 ta1 a2 ta2 c) t;
           final_fit.rmse :=
             rmse_of y (map (fun ti => model_double ti a1 ta1 a2 ta2 c) t) |}.
Proof.
  unfold final_fit.fit_double. intros H.
  bind_inv H. destruct x as [popt pcov].
  apply curve_fit_inr in Hx. destruct Hx as (s & Hs & -> & ->).
  bind_inv H. destruct x as [[[[a1 ta1] a2] ta2] c]. apply unpack5_inr in Hx.
  bind_inv H. bind_inv H. inversion H.
  exists s, a1, ta1, a2, ta2, c, x, x0. auto 10.
Qed.

Lemma report_inr (t y : array) (popt : list R) (pcov : matrix)
    (r : source_fit) :
  report t y popt pcov = inr r ->
  popt = [N0 r; tau r; c r] /\
  map sqrt (np_diag pcov) = [N0_err r; tau_err r; c_err r] /\
  yfit r = map (fun x => model x (N0 r) (tau r) (c r)) t /\
  rmse r = rmse_of y (yfit r).
Proof.
  unfold report. intros H.
  bind_inv H. destruct x as [[a ta] c0]. apply unpack3_inr in Hx.
  bind_inv H. destruct x as [[ea eta] ec]. apply unpack3_inr in Hx0.
  inversion H. simpl. auto.
Qed.

Lemma data_scales_inr (t y : array) :
  y <> [] -> t <> [] ->
  exists ymax ymin tmax tmin,
    is_max ymax y /\ is_min ymin y /\ is_max tmax t /\ is_min tmin t /\
    py_max y = inr ymax /\ py_min y = inr ymin /\
    np_max t = inr tmax /\ np_min t = inr tmin /\
    final_fit.data_scales t y = inr (ymax - ymin, ymin, tmax - tmin).
Proof.
  intros Hy Ht.
  destruct (py_max_spec y Hy) as (ymax & Hmx & _ & Hymax).
  destruct (py_min_spec y Hy) as (ymin & Hmn & _ & Hymin).
  destruct (py_max_spec t Ht) as (tmax & _ & Htx & Htmax).
  destruct (py_min_spec t Ht) as (tmin & _ & Htn & Htmin).
  exists ymax, ymin, tmax, tmin.
  unfold final_fit.data_scales. rewrite Hmx, Hmn, Htx, Htn. simpl.
  auto 10.
Qed.

(** ** Minimisers of the concrete runs *)

Lemma bound_leb_sound (a b : bound) : bound_leb a b = true -> bound_le a b.
Proof.
  destruct a, b; simpl; try (intros; exact I); try discriminate.
  destruct (Rle_dec r r0); [auto | discriminate].
Qed.

Lemma all2_sound (lo hi : list bound) :
  all2 lo hi = true -> Forall2 bound_le lo hi.
Proof.
  revert hi. induction lo as [| a lo IH]; intros [| b hi]; simpl;
    try discriminate.
  - constructor.
  - intros H. apply andb_true_iff in H. destruct H as [Hab Hrest].
    constructor; [apply bound_leb_sound; exact Hab | apply IH; exact Hrest].
Qed.

Lemma within_sound (p : list R) (b : box) :
  within p b = true -> in_bounds p b.
Proof.
  unfold within, in_bounds. intros H.
  apply andb_true_iff in H. destruct H as [H1 H2].
  split; apply all2_sound; assumption.
Qed.

Lemma constant_solver_honours_bounds (s : solution) :
  honours_bounds (constant_solver s).
Proof.
  intros f x y g sg b s'. unfold constant_solver.
  destruct (within (sol_popt s) b) eqn:Hw; intros H; [| discriminate].
  inversion H; subst s'. apply within_sound. exact Hw.
Qed.

Lemma Rle_dec_true (x y : R) :
  x <= y -> (if Rle_dec x y then true else false) = true.
Proof. intros H. destruct (Rle_dec x y); [reflexivity | contradiction]. Qed.

Lemma constant_solver_three (a ta c : R) (pcov : matrix) (chisq : R)
    (f : model_fn) (t y g sg : array) :
  0 <= a -> 0 <= ta ->
  constant_solver (Solution [a; ta; c] pcov chisq) f t y g sg bounds3
  = inr (Solution [a; ta; c] pcov chisq).
Proof.
  intros Ha Hta. unfold constant_solver, within. simpl.
  rewrite !Rle_dec_true by assumption. reflexivity.
Qed.

Lemma constant_solver_five (a1 ta1 a2 ta2 c : R) (pcov : matrix) (chisq : R)
    (f : model_fn) (t y g sg : array) :
  0 <= a1 -> 0 <= ta1 -> 0 <= a2 -> 0 <= ta2 ->
  constant_solver (Solution [a1; ta1; a2; ta2; c] pcov chisq) f t y g sg
    (final_fit.bounds final_fit.double)
  = inr (Solution [a1; ta1; a2; ta2; c] pcov chisq).
Proof.
  intros H1 H2 H3 H4. unfold constant_solver, within. simpl.
  rewrite !Rle_dec_true by assumption. reflexivity.
Qed.

(** ** Fits that succeed

    Whenever the minimiser returns an estimate and a covariance of the
    model's size, the fit returns a result. *)

Lemma fit_single_succeeds (ls : minimiser) (t y sg g : array) (s : solution)
    (a ta c : R) :
  ls (star3 model_single) t y g sg (final_fit.bounds final_fit.single)
    = inr s ->
  sol_popt s = [a; ta; c] ->
  (1 < List.length (sol_pcov s))%nat ->
  exists r, final_fit.fit_single ls t y sg g = inr r.
Proof.
  intros Hs Hp Hlen.
  unfold final_fit.fit_single, curve_fit. rewrite Hs. simpl. rewrite Hp. simpl.
  rewrite (index_perr_lt _ 1 Hlen). simpl. eexists. reflexivity.
Qed.

Lemma fit_double_succeeds (ls : minimiser) (t y sg g : array) (s : solution)
    (a1 ta1 a2 ta2 c : R) :
  ls (star5 model_double) t y g sg (final_fit.bounds final_fit.double)
    = inr s ->
  sol_popt s = [a1; ta1; a2; ta2; c] ->
  (3 < List.length (sol_pcov s))%nat ->
  exists r, final_fit.fit_double ls t y sg g = inr r.
Proof.
  intros Hs Hp Hlen.
  unfold final_fit.fit_double, curve_fit. rewrite Hs. simpl. rewrite Hp. simpl.
  rewrite (index_perr_lt _ 1) by lia. simpl.
  rewrite (index_perr_lt _ 3 Hlen). simpl. eexists. reflexivity.
Qed.

Lemma fit_of_scales (ls : minimiser) (ft : final_fit.fit_type)
    (t y sg : array) (amp_span c_guess duration : R) :
  final_fit.data_scales t y = inr (amp_span, c_guess, duration) ->
  final_fit.fit ls ft t y sg
  = final_fit.fit_with ls ft t y sg
      (final_fit.p0 ft amp_span c_guess duration).
Proof. unfold final_fit.fit. intros ->. reflexivity. Qed.

Lemma sample_single_fit :
  exists r, final_fit.fit (constant_solver single_solution) final_fit.single
              sample_t sample_y (sigma sample_y) = inr r.
Proof.
  destruct (data_scales_inr sample_t sample_y) as (a & b & c & d & H);
    [discriminate | discriminate |].
  destruct H as (_ & _ & _ & _ & _ & _ & _ & _ & H).
  rewrite (fit_of_scales _ _ _ _ _ _ _ _ H). simpl.
  eapply fit_single_succeeds.
  - apply constant_solver_three; lra.
  - reflexivity.
  - simpl. lia.
Qed.

Lemma sample_double_fit :
  exists r, final_fit.fit (constant_solver double_solution) final_fit.double
              sample_t sample_y (sigma sample_y) = inr r.
Proof.
  destruct (data_scales_inr sample_t sample_y) as (a & b & c & d & H);
    [discriminate | discriminate |].
  destruct H as (_ & _ & _ & _ & _ & _ & _ & _ & H).
  rewrite (fit_of_scales _ _ _ _ _ _ _ _ H). simpl.
  eapply fit_double_succeeds.
  - apply constant_solver_five; lra.
  - reflexivity.
  - simpl. lia.
Qed.

(** ** Models *)

(** C10. The single-exponential model is nested in the double-exponential
    one: with a second amplitude of zero, [model_double] at decay times
    [tau1, tau2 > 0] is [model_single] with the first component's
    parameters, for every time [t], amplitude [A1] and baseline [c]. *)
Theorem model_double_nests_model_single (t A1 tau1 tau2 c : R) :
  0 < tau1 -> 0 < tau2 ->
  model_double t A1 tau1 0 tau2 c = model_single t A1 tau1 c.
Proof.
  intros _ _. unfold model_double, model_single. ring.
Qed.

Lemma model_double_nests_model_single_witness :
  0 < 2 /\ 0 < 5 /\ model_double 1 100 2 0 5 3 = model_single 1 100 2 3.
Proof.
  assert (H2 : 0 < 2) by lra.
  assert (H5 : 0 < 5) by lra.
  split; [exact H2 |]. split; [exact H5 |].
  exact (model_double_nests_model_single 1 100 2 5 3 H2 H5).
Defined.

(** ** Weights *)

Lemma weight_eq (count : R) : weight count = sqrt (Rmax count 1).
Proof. reflexivity. Qed.

Lemma weight_ge_1 (count : R) : 1 <= weight count.
Proof.
  rewrite weight_eq. rewrite <- sqrt_1 at 1.
  apply sqrt_le_1_alt. apply Rmax_r.
Qed.

Lemma weight_monotone (c1 c2 : R) : c1 <= c2 -> weight c1 <= weight c2.
Proof.
  intros H. rewrite !weight_eq.
  apply sqrt_le_1_alt. apply Rle_max_compat_r. exact H.
Qed.

(** C2. For a count [c1 >= 0] the weight is [sqrt (max c1 1)], so it is at
    least 1, and it is monotone: a count [c2 >= c1] has a weight no smaller.
    In the array [sigma y] the entry of a sample is the weight of its count,
    so raising the count at one position of [y] does not lower its weight
    and leaves the other weights as they are. *)
Theorem weight_floor_and_monotone (c1 c2 : R) :
  0 <= c1 -> c1 <= c2 ->
  weight c1 = sqrt (Rmax c1 1) /\
  1 <= weight c1 /\
  weight c1 <= weight c2 /\
  forall before after : array,
    sigma (before ++ c1 :: after) = sigma before ++ weight c1 :: sigma after /\
    sigma (before ++ c2 :: after) = sigma before ++ weight c2 :: sigma after.
Proof.
  intros _ Hle. split; [apply weight_eq |].
  split; [apply weight_ge_1 |].
  split; [apply weight_monotone; exact Hle |].
  intros before after. unfold sigma. rewrite !map_app. simpl. auto.
Qed.

Lemma weight_floor_and_monotone_witness :
  0 <= 0 /\ 0 <= 4 /\
  weight 0 = sqrt (Rmax 0 1) /\
  1 <= weight 0 /\
  weight 0 <= weight 4 /\
  forall before after : array,
    sigma (before ++ 0 :: after) = sigma before ++ weight 0 :: sigma after /\
    sigma (before ++ 4 :: after) = sigma before ++ weight 4 :: sigma after.
Proof.
  assert (H0 : 0 <= 0) by lra.
  assert (H4 : 0 <= 4) by lra.
  split; [exact H0 |]. split; [exact H4 |].
  exact (weight_floor_and_monotone 0 4 H0 H4).
Defined.

(** ** Derived quantities of [final_fit.py] *)

(** C1. Whenever a fit of the main loop returns, the minimiser returned a
    solution, the reported decay times and their errors are that solution's
    estimates and standard errors, and every half-life is the decay time
    times [ln 2] and every half-life error is the decay time's standard
    error times [ln 2]: for the single fit and for both components of the
    double fit. *)
Theorem half_life_is_tau_times_ln2 (ls : minimiser)
    (ft : final_fit.fit_type) (t y sg : array) (r : final_fit.fit_result) :
  final_fit.fit ls ft t y sg = inr r ->
  exists (g : list R) (s : solution),
    ls (model_of ft) t y g sg (final_fit.bounds ft) = inr s /\
    match ft, final_fit.fitted r with
    | final_fit.single, final_fit.Single q =>
        final_fit.tau q = estimate s 1 /\
        final_fit.tau_err q = std_err s 1 /\
        final_fit.t_half q = final_fit.tau q * ln 2 /\
        final_fit.t_half_err q = final_fit.tau_err q * ln 2
    | final_fit.double, final_fit.Double q =>
        final_fit.tau1 q = estimate s 1 /\
        final_fit.tau2 q = estimate s 3 /\
        final_fit.t1_half q = final_fit.tau1 q * ln 2 /\
        final_fit.t1_half_err q = std_err s 1 * ln 2 /\
        final_fit.t2_half q = final_fit.tau2 q * ln 2 /\
        final_fit.t2_half_err q = std_err s 3 * ln 2
    | _, _ => False
    end.
Proof.
  unfold final_fit.fit. intros H.
  bind_inv H. destruct x as [[amp_span c_guess] duration].
  exists (final_fit.p0 ft amp_span c_guess duration).
  destruct ft; simpl in H.
  - apply fit_single_inr in H.
    destruct H as (s & a & ta & c & te & Hs & Hp & He & ->).
    exists s. split; [exact Hs |]. simpl.
    apply index_perr in He. destruct He as [_ ->].
    unfold estimate, std_err, LN2. rewrite Hp. simpl. auto.
  - apply fit_double_inr in H.
    destruct H as (s & a1 & ta1 & a2 & ta2 & c & e1 & e3 & Hs & Hp & H1 & H3 & ->).
    exists s. split; [exact Hs |]. simpl.
    apply index_perr in H1. destruct H1 as [_ ->].
    apply index_perr in H3. destruct H3 as [_ ->].
    unfold estimate, std_err, LN2. rewrite Hp. simpl. auto 10.
Qed.

Lemma half_life_is_tau_times_ln2_witness :
  exists r,
    final_fit.fit (constant_solver double_solution) final_fit.double
      sample_t sample_y (sigma sample_y) = inr r /\
    exists (g : list R) (s : solution),
      constant_solver double_solution (model_of final_fit.double)
        sample_t sample_y g (sigma sample_y)
        (final_fit.bounds final_fit.double) = inr s /\
      match final_fit.fitted r with
      | final_fit.Double q =>
          final_fit.tau1 q = estimate s 1 /\
          final_fit.tau2 q = estimate s 3 /\
          final_fit.t1_half q = final_fit.tau1 q * ln 2 /\
          final_fit.t1_half_err q = std_err s 1 * ln 2 /\
          final_fit.t2_half q = final_fit.tau2 q * ln 2 /\
          final_fit.t2_half_err q = std_err s 3 * ln 2
      | _ => False
      end.
Proof.
  destruct sample_double_fit as [r Hr].
  exists r. split; [exact Hr |].
  exact (half_life_is_tau_times_ln2 _ _ _ _ _ _ Hr).
Defined.

(** C7, in exact arithmetic.  Whenever the double fit returns with fitted
    amplitudes of non-zero sum, the amplitudes are the minimiser's estimates
    and the abundances [(A1 / (A1 + A2)) * 100] and [(A2 / (A1 + A2)) * 100],
    taken as expressions over the real numbers, are [100 * A1 / (A1 + A2)]
    and [100 * A2 / (A1 + A2)], and the two add up to 100. *)
Theorem abundances_sum_to_100 (ls : minimiser) (t y sg : array)
    (r : final_fit.fit_result) (q : final_fit.double_fit) :
  final_fit.fit ls final_fit.double t y sg = inr r ->
  final_fit.fitted r = final_fit.Double q ->
  final_fit.A1 q + final_fit.A2 q <> 0 ->
  (exists (g : list R) (s : solution),
      ls (star5 model_double) t y g sg (final_fit.bounds final_fit.double)
        = inr s /\
      final_fit.A1 q = estimate s 0 /\ final_fit.A2 q = estimate s 2) /\
  final_fit.abund1 q
    = 100 * final_fit.A1 q / (final_fit.A1 q + final_fit.A2 q) /\
  final_fit.abund2 q
    = 100 * final_fit.A2 q / (final_fit.A1 q + final_fit.A2 q) /\
  final_fit.abund1 q + final_fit.abund2 q = 100.
Proof.
  unfold final_fit.fit. intros H Hq Hsum.
  bind_inv H. destruct x as [[amp_span c_guess] duration]. simpl in H.
  apply fit_double_inr in H.
  destruct H as (s & a1 & ta1 & a2 & ta2 & c & e1 & e3 & Hs & Hp & _ & _ & ->).
  simpl in Hq. inversion Hq; subst q; clear Hq. simpl in *.
  split.
  - exists (final_fit.p0 final_fit.double amp_span c_guess duration), s.
    unfold estimate. rewrite Hp. simpl. auto.
  - repeat split; field; exact Hsum.
Qed.

Lemma abundances_sum_to_100_witness :
  exists r q,
    final_fit.fit (constant_solver double_solution) final_fit.double
      sample_t sample_y (sigma sample_y) = inr r /\
    final_fit.fitted r = final_fit.Double q /\
    final_fit.A1 q + final_fit.A2 q <> 0 /\
    final_fit.A1 q = 30 /\ final_fit.A2 q = 70 /\
    final_fit.abund1 q
      = 100 * final_fit.A1 q / (final_fit.A1 q + final_fit.A2 q) /\
    final_fit.abund2 q
      = 100 * final_fit.A2 q / (final_fit.A1 q + final_fit.A2 q) /\
    final_fit.abund1 q + final_fit.abund2 q = 100.
Proof.
  destruct sample_double_fit as [r Hr].
  pose proof Hr as Hr'. unfold final_fit.fit in Hr'.
  bind_inv Hr'. destruct x as [[amp_span c_guess] duration]. simpl in Hr'.
  apply fit_double_inr in Hr'.
  destruct Hr' as (s & a1 & ta1 & a2 & ta2 & c & e1 & e3 & Hs & Hp & _ & _ & Hrq).
  unfold double_solution in Hs.
  rewrite constant_solver_five in Hs by lra.
  inversion Hs; subst s; clear Hs. simpl in Hp. inversion Hp; subst.
  eexists. eexists.
  assert (Hsum : 30 + 70 <> 0) by lra.
  split; [exact Hr |]. split; [reflexivity |]. split; [exact Hsum |].
  split; [reflexivity |]. split; [reflexivity |].
  exact (proj2 (abundances_sum_to_100 _ _ _ _ _ _ Hr eq_refl Hsum)).
Defined.

Section in_binary64.

Import PrimFloat.

(** C7, as stated, fails in the arithmetic of the script.  For the fitted
    amplitudes 1 and 2, binary64 gives 33.333333333333329 and
    66.666666666666657: their sum, 99.999999999999986, is below 100, and
    the first is not the binary64 value of [100 * 1 / (1 + 2)]. *)
Lemma abundances_in_binary64_miss_100 :
  let abund1 := fst (binary64.abundances 1%float 2%float) in
  let abund2 := snd (binary64.abundances 1%float 2%float) in
  PrimFloat.eqb (PrimFloat.add abund1 abund2) 100%float = false /\
  PrimFloat.ltb (PrimFloat.add abund1 abund2) 100%float = true /\
  PrimFloat.eqb abund1
    (PrimFloat.div (PrimFloat.mul 100%float 1%float)
       (PrimFloat.add 1%float 2%float)) = false.
Proof.
  vm_compute. repeat split.
Qed.

End in_binary64.

(** ** Initial guesses *)

(** C8. For a non-empty series the guesses come from the data: with
    [ymax], [ymin] the largest and smallest count and [tmax], [tmin] the
    largest and smallest time, the main loop of [final_fit.py] starts the
    single fit from [[ymax - ymin; (tmax - tmin) / 3; ymin]] and the double
    fit from half the span for each amplitude, a tenth and a half of the
    duration for the two decay times, and [ymin]; [Radioactive_Code.py]
    starts from the single-fit guess, and so does the "initial fits"
    section when the duration is positive. *)
Theorem initial_guesses_from_data (ls : minimiser) (t y sg : array) :
  y <> [] -> t <> [] ->
  exists ymax ymin tmax tmin,
    is_max ymax y /\ is_min ymin y /\ is_max tmax t /\ is_min tmin t /\
    final_fit.fit ls final_fit.single t y sg
    = final_fit.fit_single ls t y sg
        [ymax - ymin; (tmax - tmin) / 3; ymin] /\
    final_fit.fit ls final_fit.double t y sg
    = final_fit.fit_double ls t y sg
        [(ymax - ymin) / 2; (tmax - tmin) / 10;
         (ymax - ymin) / 2; (tmax - tmin) / 2; ymin] /\
    Radioactive_Code.p0 t y = inr [ymax - ymin; (tmax - tmin) / 3; ymin] /\
    (0 < tmax - tmin ->
     initial_fits.p0 t y = inr [ymax - ymin; (tmax - tmin) / 3; ymin]).
Proof.
  intros Hy Ht.
  destruct (data_scales_inr t y Hy Ht)
    as (ymax & ymin & tmax & tmin & H1 & H2 & H3 & H4 & Hmx & Hmn & Htx & Htn & Hs).
  exists ymax, ymin, tmax, tmin.
  repeat (split; [assumption |]).
  split; [| split; [| split]].
  - rewrite (fit_of_scales _ _ _ _ _ _ _ _ Hs). reflexivity.
  - rewrite (fit_of_scales _ _ _ _ _ _ _ _ Hs). reflexivity.
  - unfold Radioactive_Code.p0. rewrite Hmx, Hmn, Htx, Htn. reflexivity.
  - intros Hpos. unfold initial_fits.p0, initial_fits.tau_guess.
    rewrite Hmx, Hmn, Htx, Htn. simpl.
    destruct (Rlt_dec 0 (tmax - tmin)) as [_ | Hn];
      [reflexivity | contradiction].
Qed.

Lemma initial_guesses_from_data_witness :
  sample_y <> [] /\ sample_t <> [] /\
  exists ymax ymin tmax tmin,
    is_max ymax sample_y /\ is_min ymin sample_y /\
    is_max tmax sample_t /\ is_min tmin sample_t /\
    final_fit.fit (constant_solver single_solution) final_fit.single
      sample_t sample_y (sigma sample_y)
    = final_fit.fit_single (constant_solver single_solution)
        sample_t sample_y (sigma sample_y)
        [ymax - ymin; (tmax - tmin) / 3; ymin] /\
    final_fit.fit (constant_solver single_solution) final_fit.double
      sample_t sample_y (sigma sample_y)
    = final_fit.fit_double (constant_solver single_solution)
        sample_t sample_y (sigma sample_y)
        [(ymax - ymin) / 2; (tmax - tmin) / 10;
         (ymax - ymin) / 2; (tmax - tmin) / 2; ymin] /\
    Radioactive_Code.p0 sample_t sample_y
    = inr [ymax - ymin; (tmax - tmin) / 3; ymin] /\
    (0 < tmax - tmin ->
     initial_fits.p0 sample_t sample_y
     = inr [ymax - ymin; (tmax - tmin) / 3; ymin]).
Proof.
  assert (Hy : sample_y <> []) by discriminate.
  assert (Ht : sample_t <> []) by discriminate.
  split; [exact Hy |]. split; [exact Ht |].
  exact (initial_guesses_from_data (constant_solver single_solution)
           sample_t sample_y (sigma sample_y) Hy Ht).
Defined.

(** ** Bounds *)

Lemma in_bounds3 (a ta c : R) :
  in_bounds [a; ta; c] bounds3 -> 0 <= a /\ 0 <= ta.
Proof.
  intros [Hlo _]. simpl in Hlo.
  inversion Hlo as [| ? ? ? ? Ha Hrest]; subst.
  inversion Hrest as [| ? ? ? ? Hta _]; subst.
  simpl in Ha, Hta. auto.
Qed.

Lemma in_bounds5 (a1 ta1 a2 ta2 c : R) :
  in_bounds [a1; ta1; a2; ta2; c] (final_fit.bounds final_fit.double) ->
  0 <= a1 /\ 0 <= ta1 /\ 0 <= a2 /\ 0 <= ta2.
Proof.
  intros [Hlo _]. simpl in Hlo.
  inversion Hlo as [| ? ? ? ? H1 Hr1]; subst.
  inversion Hr1 as [| ? ? ? ? H2 Hr2]; subst.
  inversion Hr2 as [| ? ? ? ? H3 Hr3]; subst.
  inversion Hr3 as [| ? ? ? ? H4 _]; subst.
  simpl in H1, H2, H3, H4. auto.
Qed.

Lemma Radioactive_Code_fit_inr (ls : minimiser) (t y : array)
    (r : source_fit) :
  Radioactive_Code.fit ls t y = inr r ->
  exists g s,
    Radioactive_Code.p0 t y = inr g /\
    ls (star3 model) t y g (sigma y) bounds3 = inr s /\
    report t y (sol_popt s)
      (scale_cov (reduced_chisq (sol_chisq s) (List.length y) (List.length g))
         (sol_pcov s)) = inr r.
Proof.
  unfold Radioactive_Code.fit. intros H.
  bind_inv H. bind_inv H. destruct x0 as [popt pcov].
  apply curve_fit_inr in Hx0. destruct Hx0 as (s & Hs & -> & ->).
  exists x, s. auto.
Qed.

Lemma initial_fits_fit_inr (ls : minimiser) (t y g sg : array)
    (r : source_fit) :
  initial_fits.fit ls t y g sg = inr r ->
  exists s,
    ls (star3 model) t y g sg bounds3 = inr s /\
    report t y (sol_popt s) (sol_pcov s) = inr r.
Proof.
  unfold initial_fits.fit. intros H.
  bind_inv H. destruct x as [popt pcov].
  apply curve_fit_inr in Hx. destruct Hx as (s & Hs & -> & ->).
  exists s. auto.
Qed.

Lemma sample_single_fit_baseline (c0 : R) :
  exists r q,
    final_fit.fit (constant_solver (Solution [100; 2; c0] (full 3 4) 8))
      final_fit.single sample_t sample_y (sigma sample_y) = inr r /\
    final_fit.fitted r = final_fit.Single q /\ final_fit.c q = c0.
Proof.
  destruct (data_scales_inr sample_t sample_y) as (a & b & c & d & H);
    [discriminate | discriminate |].
  destruct H as (_ & _ & _ & _ & _ & _ & _ & _ & H).
  rewrite (fit_of_scales _ _ _ _ _ _ _ _ H). simpl.
  unfold final_fit.fit_single, curve_fit.
  rewrite (constant_solver_three 100 2 c0) by lra. simpl.
  eexists. eexists. split; [reflexivity |]. split; reflexivity.
Qed.

(** C6. With a minimiser that keeps its estimates inside the box it is
    given, every fit result has amplitudes and decay times that are not
    negative: in the single and the double fit of [final_fit.py], in
    [Radioactive_Code.py] and in the "initial fits" section.  The baseline
    is not constrained: its bounds are [-inf] and [+inf], and any real
    number, negative ones included, is the baseline of some fit by such
    a minimiser. *)
Theorem fitted_amplitudes_and_decay_times_nonnegative (ls : minimiser) :
  honours_bounds ls ->
  (forall ft t y sg r,
     final_fit.fit ls ft t y sg = inr r ->
     match final_fit.fitted r with
     | final_fit.Single q => 0 <= final_fit.A q /\ 0 <= final_fit.tau q
     | final_fit.Double q =>
         0 <= final_fit.A1 q /\ 0 <= final_fit.tau1 q /\
         0 <= final_fit.A2 q /\ 0 <= final_fit.tau2 q
     end) /\
  (forall t y r, Radioactive_Code.fit ls t y = inr r -> 0 <= N0 r /\ 0 <= tau r) /\
  (forall t y g sg r,
     initial_fits.fit ls t y g sg = inr r -> 0 <= N0 r /\ 0 <= tau r) /\
  (forall ft,
     last (fst (final_fit.bounds ft)) PosInf = NegInf /\
     last (snd (final_fit.bounds ft)) NegInf = PosInf) /\
  (last (fst bounds3) PosInf = NegInf /\ last (snd bounds3) NegInf = PosInf) /\
  (forall c0 : R,
     exists ls' r q,
       honours_bounds ls' /\
       final_fit.fit ls' final_fit.single sample_t sample_y (sigma sample_y)
         = inr r /\
       final_fit.fitted r = final_fit.Single q /\ final_fit.c q = c0).
Proof.
  intros Hb. repeat split.
  - intros ft t y sg r H. unfold final_fit.fit in H.
    bind_inv H. destruct x as [[amp_span c_guess] duration].
    destruct ft; simpl in H.
    + apply fit_single_inr in H.
      destruct H as (s & a & ta & c & te & Hs & Hp & _ & ->). simpl.
      apply Hb in Hs. rewrite Hp in Hs. apply in_bounds3 in Hs. exact Hs.
    + apply fit_double_inr in H.
      destruct H as (s & a1 & ta1 & a2 & ta2 & c & e1 & e3 & Hs & Hp & _ & _ & ->).
      simpl. apply Hb in Hs. rewrite Hp in Hs. apply in_bounds5 in Hs.
      exact Hs.
  - apply Radioactive_Code_fit_inr in H.
    destruct H as (g & s & _ & Hs & Hr).
    apply report_inr in Hr. destruct Hr as (Hp & _).
    apply Hb in Hs. rewrite Hp in Hs. apply in_bounds3 in Hs. apply Hs.
  - apply Radioactive_Code_fit_inr in H.
    destruct H as (g & s & _ & Hs & Hr).
    apply report_inr in Hr. destruct Hr as (Hp & _).
    apply Hb in Hs. rewrite Hp in Hs. apply in_bounds3 in Hs. apply Hs.
  - apply initial_fits_fit_inr in H.
    destruct H as (s & Hs & Hr).
    apply report_inr in Hr. destruct Hr as (Hp & _).
    apply Hb in Hs. rewrite Hp in Hs. apply in_bounds3 in Hs. apply Hs.
  - apply initial_fits_fit_inr in H.
    destruct H as (s & Hs & Hr).
    apply report_inr in Hr. destruct Hr as (Hp & _).
    apply Hb in Hs. rewrite Hp in Hs. apply in_bounds3 in Hs. apply Hs.
  - destruct ft; reflexivity.
  - destruct ft; reflexivity.
  - intros c0.
    destruct (sample_single_fit_baseline c0) as (r & q & Hr & Hq & Hc).
    exists (constant_solver (Solution [100; 2; c0] (full 3 4) 8)), r, q.
    split; [apply constant_solver_honours_bounds | auto].
Qed.

Lemma fitted_amplitudes_and_decay_times_nonnegative_witness :
  honours_bounds (constant_solver double_solution) /\
  exists r,
    final_fit.fit (constant_solver double_solution) final_fit.double
      sample_t sample_y (sigma sample_y) = inr r /\
    match final_fit.fitted r with
    | final_fit.Single q => 0 <= final_fit.A q /\ 0 <= final_fit.tau q
    | final_fit.Double q =>
        0 <= final_fit.A1 q /\ 0 <= final_fit.tau1 q /\
        0 <= final_fit.A2 q /\ 0 <= final_fit.tau2 q
    end.
Proof.
  pose proof (constant_solver_honours_bounds double_solution) as Hb.
  split; [exact Hb |].
  destruct sample_double_fit as [r Hr].
  exists r. split; [exact Hr |].
  exact (proj1 (fitted_amplitudes_and_decay_times_nonnegative
                  (constant_solver double_solution) Hb)
           final_fit.double sample_t sample_y (sigma sample_y) r Hr).
Defined.

(** ** The empty series *)

(** C4, as the scripts have it.  For the zero-length series every fitting
    loop raises [ValueError] "max() arg is an empty sequence" while it
    computes the initial guesses: whatever the minimiser is, it is not
    consulted, and no fit result is produced.  The main loop of
    [final_fit.py] reports this through the handler it has for a failed fit,
    with that message as the reason, and draws the (empty) data alone. *)
Theorem empty_series_raises_before_the_solver (ls : minimiser) :
  let e := Raise ValueError "max() arg is an empty sequence" in
  (forall ft sg, final_fit.fit ls ft [] [] sg = inl e) /\
  (forall i ft,
     final_fit.analyse ls i ft []
     = [final_fit.PrintFitFailed (exn_msg e); final_fit.PlotDataOnly i [] [];
        final_fit.SetTitle i ft]) /\
  Radioactive_Code.p0 [] [] = inl e /\
  Radioactive_Code.fit ls [] [] = inl e /\
  initial_fits.p0 [] [] = inl e.
Proof.
  simpl. repeat split.
Qed.

(** C4, as stated, fails: the empty series is not given a condition of its
    own.  In the main loop of [final_fit.py] it is reported by the
    "Fit Failed" line, the one that reports a solver that did not
    converge on the sample series. *)
Lemma empty_series_is_reported_as_fit_failure :
  existsb final_fit.is_fit_failed
    (final_fit.analyse (constant_solver single_solution) 1 final_fit.single [])
  = true /\
  existsb final_fit.is_fit_failed
    (final_fit.analyse
       (failing_solver (Raise RuntimeError "Optimal parameters not found"))
       1 final_fit.single sample_rows)
  = true.
Proof.
  split; [reflexivity |].
  unfold final_fit.analyse.
  destruct (data_scales_inr (ms_to_s (map fst sample_rows)) (map snd sample_rows))
    as (a & b & c & d & H); [discriminate | discriminate |].
  destruct H as (_ & _ & _ & _ & _ & _ & _ & _ & H).
  rewrite (fit_of_scales _ _ _ _ _ _ _ _ H). reflexivity.
Qed.

(** ** Solver failures *)

Lemma for_each_no_escape {event X : Type} (body : X -> run event)
    (xs : list X) :
  (forall x, In x xs -> snd (body x) = None) ->
  for_each body xs = (flat_map (fun x => fst (body x)) xs, None).
Proof.
  induction xs as [| x xs IH]; intros H; simpl.
  - reflexivity.
  - pose proof (H x (or_introl eq_refl)) as Hx.
    destruct (body x) as [out [e |]]; simpl in Hx; [discriminate |].
    rewrite IH by (intros x' Hin; apply H; right; exact Hin).
    reflexivity.
Qed.

(** In the main loop of [final_fit.py] no exception escapes an iteration:
    all four files are processed and the figure is shown, whatever the
    minimiser does. *)
Lemma final_fit_main_runs_all_channels (ls : minimiser)
    (files : nat -> final_fit.csv_file) :
  final_fit.main ls files
  = (flat_map (fun i => fst (final_fit.iteration ls files i)) [1; 2; 3; 4]%nat
       ++ [final_fit.Show], None).
Proof.
  unfold final_fit.main.
  rewrite for_each_no_escape; [reflexivity |].
  intros i Hin. simpl in Hin.
  destruct Hin as [<- | [<- | [<- | [<- | []]]]]; reflexivity.
Qed.

(** There a failure of the fit is caught: its message is printed as the
    reason, the data alone are drawn, and the iteration ends normally. *)
Lemma final_fit_failure_is_caught (ls : minimiser) (i : nat)
    (ft : final_fit.fit_type) (rows : list (R * R)) (e : exn) :
  final_fit.fit ls ft (ms_to_s (map fst rows)) (map snd rows)
    (sigma (map snd rows)) = inl e ->
  final_fit.analyse ls i ft rows
  = [final_fit.PrintFitFailed (exn_msg e);
     final_fit.PlotDataOnly i (ms_to_s (map fst rows)) (map snd rows);
     final_fit.SetTitle i ft].
Proof.
  intros H. unfold final_fit.analyse. rewrite H. reflexivity.
Qed.

(** So is it in the "initial fits" section, once the guess is there. *)
Lemma initial_fits_failure_is_caught (ls : minimiser) (t y g : array)
    (i : nat) (e : exn) :
  initial_fits.p0 t y = inr g ->
  initial_fits.fit ls t y g (sigma y) = inl e ->
  initial_fits.iteration ls t (i, y)
  = ([initial_fits.PrintFitFailed (i + 1) (exn_msg e);
      initial_fits.PlotDataOnly i t y;
      initial_fits.SetTitle (i + 1)], None).
Proof.
  intros Hg H. unfold initial_fits.iteration. rewrite Hg, H. reflexivity.
Qed.

Lemma Radioactive_Code_p0_inr (t y : array) :
  y <> [] -> t <> [] -> exists g, Radioactive_Code.p0 t y = inr g.
Proof.
  intros Hy Ht.
  destruct (data_scales_inr t y Hy Ht)
    as (ymax & ymin & tmax & tmin & _ & _ & _ & _ & Hmx & Hmn & Htx & Htn & _).
  unfold Radioactive_Code.p0. rewrite Hmx, Hmn, Htx, Htn. simpl.
  eexists. reflexivity.
Qed.

(** C3 at [Radioactive_Code.py]: the call of [curve_fit] is not guarded.
    When the solver raises [e] on the first source of a non-empty file,
    [e] escapes the loop: nothing is printed or drawn, the sources after
    it are not fitted and the figure is not shown. *)
Theorem Radioactive_Code_solver_failure_ends_the_run (ls : minimiser)
    (rows : list row5) (e : exn) :
  rows <> [] ->
  (forall g,
     ls (star3 model) (ms_to_s (map Time rows)) (map Channel_1 rows) g
       (sigma (map Channel_1 rows)) bounds3 = inl e) ->
  Radioactive_Code.main ls rows = ([], Some e).
Proof.
  intros Hrows Hls.
  assert (Hy : map Channel_1 rows <> [])
    by (destruct rows; [contradiction Hrows; reflexivity | discriminate]).
  assert (Ht : ms_to_s (map Time rows) <> [])
    by (destruct rows; [contradiction Hrows; reflexivity | discriminate]).
  destruct (Radioactive_Code_p0_inr _ _ Hy Ht) as [g Hg].
  unfold Radioactive_Code.main, sources_of, enumerate. simpl.
  unfold Radioactive_Code.fit, curve_fit. rewrite Hg. simpl.
  rewrite Hls. reflexivity.
Qed.

Lemma Radioactive_Code_solver_failure_ends_the_run_witness :
  sample_rows5 <> [] /\
  (forall g,
     failing_solver (Raise RuntimeError "Optimal parameters not found")
       (star3 model) (ms_to_s (map Time sample_rows5))
       (map Channel_1 sample_rows5) g
       (sigma (map Channel_1 sample_rows5)) bounds3
     = inl (Raise RuntimeError "Optimal parameters not found")) /\
  Radioactive_Code.main
    (failing_solver (Raise RuntimeError "Optimal parameters not found"))
    sample_rows5
  = ([], Some (Raise RuntimeError "Optimal parameters not found")).
Proof.
  assert (Hrows : sample_rows5 <> []) by discriminate.
  assert (Hls : forall g,
     failing_solver (Raise RuntimeError "Optimal parameters not found")
       (star3 model) (ms_to_s (map Time sample_rows5))
       (map Channel_1 sample_rows5) g
       (sigma (map Channel_1 sample_rows5)) bounds3
     = inl (Raise RuntimeError "Optimal parameters not found"))
    by (intros g; reflexivity).
  split; [exact Hrows |]. split; [exact Hls |].
  exact (Radioactive_Code_solver_failure_ends_the_run _ _ _ Hrows Hls).
Defined.

(** ** Series of zero duration *)

(** C5 at the loops without the fallback.  When all times are equal (the
    largest and the smallest are one value [m]) and there is a sample, the
    decay-time guess of [Radioactive_Code.py] is 0 and so are the decay-time
    guesses of the main loop of [final_fit.py], for the single and for the
    double fit; only the "initial fits" section starts from 1. *)
Theorem zero_duration_tau_guess (t y : array) (m : R) :
  y <> [] -> np_max t = inr m -> np_min t = inr m ->
  (exists a c, Radioactive_Code.p0 t y = inr [a; 0; c]) /\
  (exists a c,
     final_fit.data_scales t y = inr (a, c, m - m) /\
     final_fit.p0 final_fit.single a c (m - m) = [a; 0; c] /\
     final_fit.p0 final_fit.double a c (m - m) = [a / 2; 0; a / 2; 0; c]) /\
  (exists a c, initial_fits.p0 t y = inr [a; 1; c]).
Proof.
  intros Hy Hmx Hmn.
  destruct (py_max_spec y Hy) as (ymax & Hymx & _ & _).
  destruct (py_min_spec y Hy) as (ymin & Hymn & _ & _).
  assert (H3 : (m - m) / 3 = 0) by (unfold Rdiv; ring).
  assert (H10 : (m - m) / 10 = 0) by (unfold Rdiv; ring).
  assert (H2 : (m - m) / 2 = 0) by (unfold Rdiv; ring).
  split; [| split].
  - exists (ymax - ymin), ymin.
    unfold Radioactive_Code.p0. rewrite Hymx, Hymn, Hmx, Hmn. simpl.
    rewrite H3. reflexivity.
  - exists (ymax - ymin), ymin.
    unfold final_fit.data_scales. rewrite Hymx, Hymn, Hmx, Hmn. simpl.
    rewrite H3, H10, H2. auto.
  - exists (ymax - ymin), ymin.
    unfold initial_fits.p0, initial_fits.tau_guess.
    rewrite Hymx, Hymn, Hmx, Hmn. simpl.
    destruct (Rlt_dec 0 (m - m)) as [Hlt | _]; [lra | reflexivity].
Qed.

Lemma zero_duration_tau_guess_witness :
  [7] <> [] /\ np_max [0 / 1000] = inr (0 / 1000) /\
  np_min [0 / 1000] = inr (0 / 1000) /\
  (exists a c, Radioactive_Code.p0 [0 / 1000] [7] = inr [a; 0; c]) /\
  (exists a c,
     final_fit.data_scales [0 / 1000] [7]
       = inr (a, c, 0 / 1000 - 0 / 1000) /\
     final_fit.p0 final_fit.single a c (0 / 1000 - 0 / 1000) = [a; 0; c] /\
     final_fit.p0 final_fit.double a c (0 / 1000 - 0 / 1000)
       = [a / 2; 0; a / 2; 0; c]) /\
  (exists a c, initial_fits.p0 [0 / 1000] [7] = inr [a; 1; c]).
Proof.
  assert (Hy : [7] <> []) by discriminate.
  split; [exact Hy |]. split; [reflexivity |]. split; [reflexivity |].
  exact (zero_duration_tau_guess [0 / 1000] [7] (0 / 1000) Hy eq_refl eq_refl).
Defined.

(** ** The covariance convention *)

Lemma report_of_solution (t y : array) (s : solution) (k : option R)
    (r : source_fit) :
  report t y (sol_popt s)
    (match k with
     | Some v => scale_cov v (sol_pcov s)
     | None => sol_pcov s
     end) = inr r ->
  let f v := match k with Some v' => v * v' | None => v end in
  sol_popt s = [N0 r; tau r; c r] /\
  List.length (sol_pcov s) = 3%nat /\
  N0_err r = sqrt (f (nth 0 (nth 0 (sol_pcov s) []) 0)) /\
  tau_err r = sqrt (f (nth 1 (nth 1 (sol_pcov s) []) 0)) /\
  c_err r = sqrt (f (nth 2 (nth 2 (sol_pcov s) []) 0)).
Proof.
  intros H. apply report_inr in H. destruct H as (Hp & He & _).
  assert (Hlen : List.length (sol_pcov s) = 3%nat).
  { apply (f_equal (@List.length R)) in He.
    unfold np_diag in He. rewrite !length_map, length_seq in He.
    destruct k; [rewrite scale_cov_length in He |]; exact He. }
  split; [exact Hp |]. split; [exact Hlen |].
  destruct k as [v |]; simpl.
  - unfold np_diag in He. rewrite scale_cov_length, Hlen in He. simpl in He.
    rewrite !scale_cov_diag in He. inversion He. auto.
  - unfold np_diag in He. rewrite Hlen in He. simpl in He.
    inversion He. auto.
Qed.

Lemma report_succeeds (t y : array) (s : solution) (a ta c0 : R)
    (pcov : matrix) :
  sol_popt s = [a; ta; c0] -> List.length pcov = 3%nat ->
  exists r, report t y (sol_popt s) pcov = inr r.
Proof.
  intros Hp Hlen. unfold report. rewrite Hp. simpl.
  unfold np_diag. rewrite Hlen. simpl. eexists. reflexivity.
Qed.

Lemma sqrt_4 : sqrt 4 = 2.
Proof.
  replace 4 with (2 * 2) by ring. apply sqrt_square. lra.
Qed.

Lemma sqrt_16 : sqrt 16 = 4.
Proof.
  replace 16 with (4 * 4) by ring. apply sqrt_square. lra.
Qed.

Lemma final_fit_single_guess_agrees (t y g : array) :
  Radioactive_Code.p0 t y = inr g ->
  exists a c0 d,
    final_fit.data_scales t y = inr (a, c0, d) /\
    final_fit.p0 final_fit.single a c0 d = g /\
    List.length g = 3%nat.
Proof.
  unfold Radioactive_Code.p0. intros Hg.
  bind_inv Hg. bind_inv Hg. bind_inv Hg. bind_inv Hg. bind_inv Hg.
  inversion Hg; subst g; clear Hg.
  rewrite Hx0 in Hx3. inversion Hx3; subst x3.
  exists (x - x0), x0, (x1 - x2).
  unfold final_fit.data_scales. rewrite Hx, Hx0, Hx1, Hx2. simpl. auto.
Qed.

Lemma sample_source_fits :
  let ls := constant_solver single_solution in
  let t := ms_to_s (map Time sample_rows5) in
  let y := map Channel_1 sample_rows5 in
  exists r r' g,
    Radioactive_Code.fit ls t y = inr r /\
    initial_fits.p0 t y = inr g /\
    Radioactive_Code.p0 t y = inr g /\
    initial_fits.fit ls t y g (sigma y) = inr r' /\
    (N0 r, tau r, c r) = (N0 r', tau r', c r') /\
    tau_err r = 4 /\ tau_err r' = 2.
Proof.
  intros ls t y.
  assert (Hy : y <> []) by discriminate.
  assert (Ht : t <> []) by discriminate.
  destruct (data_scales_inr t y Hy Ht)
    as (ymax & ymin & tmax & tmin & _ & _ & [Htin Htub] & [Htin' Htlb]
        & Hmx & Hmn & Htx & Htn & _).
  assert (Hspan : 0 < tmax - tmin).
  { assert (H4 : 4000 / 1000 <= tmax) by (apply Htub; simpl; auto 10).
    assert (H0 : tmin <= 0 / 1000) by (apply Htlb; simpl; auto 10).
    lra. }
  set (g := [ymax - ymin; (tmax - tmin) / 3; ymin]).
  assert (Hg : Radioactive_Code.p0 t y = inr g).
  { unfold Radioactive_Code.p0. rewrite Hmx, Hmn, Htx, Htn. reflexivity. }
  assert (Hg' : initial_fits.p0 t y = inr g).
  { unfold initial_fits.p0, initial_fits.tau_guess.
    rewrite Hmx, Hmn, Htx, Htn. simpl.
    destruct (Rlt_dec 0 (tmax - tmin)) as [_ | Hn];
      [reflexivity | contradiction]. }
  assert (Hs : forall sg, ls (star3 model) t y g sg bounds3
                          = inr single_solution).
  { intros sg. unfold ls, single_solution.
    apply constant_solver_three; lra. }
  assert (Hk : reduced_chisq 8 5 3 = 4).
  { unfold reduced_chisq. simpl. field. }
  eexists _, _, g.
  split; [| split; [exact Hg' | split; [exact Hg | split]]].
  - unfold Radioactive_Code.fit, curve_fit. rewrite Hg. simpl.
    rewrite Hs. simpl. reflexivity.
  - unfold initial_fits.fit, curve_fit. rewrite Hs. simpl. reflexivity.
  - simpl. split; [reflexivity |]. split.
    + change (sqrt (4 * reduced_chisq 8 5 3) = 4).
      rewrite Hk. replace (4 * 4) with 16 by ring. apply sqrt_16.
    + apply sqrt_4.
Qed.

(** C9.  [Radioactive_Code.py] passes [absolute_sigma=False]; the main loop
    of [final_fit.py] and its "initial fits" section pass
    [absolute_sigma=True].  Whenever [Radioactive_Code.py] fits a series,
    the "initial fits" section started from the same guess and the single
    fit of the main loop fit it too, from the same solution of the
    minimiser: all report the same estimates, and where the latter two
    report the standard error [sqrt v] the first reports [sqrt (v * k)],
    with [k] the reduced chi-square of the fit, that is [sqrt k] times as
    much when [v >= 0].  On the sample series with a minimiser of
    chi-square 8 the errors of the decay time differ: 4 against 2. *)
Theorem absolute_sigma_convention_differs :
  Radioactive_Code.absolute_sigma = false /\
  initial_fits.absolute_sigma = true /\
  (forall ls t y r,
     Radioactive_Code.fit ls t y = inr r ->
     exists g s r',
       Radioactive_Code.p0 t y = inr g /\
       ls (star3 model) t y g (sigma y) bounds3 = inr s /\
       initial_fits.fit ls t y g (sigma y) = inr r' /\
       (N0 r, tau r, c r) = (N0 r', tau r', c r') /\
       (exists r'' q,
          final_fit.fit ls final_fit.single t y (sigma y) = inr r'' /\
          final_fit.fitted r'' = final_fit.Single q /\
          (final_fit.A q, final_fit.tau q, final_fit.c q)
          = (N0 r, tau r, c r) /\
          final_fit.tau_err q = tau_err r') /\
       let k := reduced_chisq (sol_chisq s) (List.length y) 3 in
       forall i v,
         (i < 3)%nat -> v = nth i (nth i (sol_pcov s) []) 0 ->
         nth i [N0_err r'; tau_err r'; c_err r'] 0 = sqrt v /\
         nth i [N0_err r; tau_err r; c_err r] 0 = sqrt (v * k) /\
         (0 <= v ->
          nth i [N0_err r; tau_err r; c_err r] 0
          = nth i [N0_err r'; tau_err r'; c_err r'] 0 * sqrt k)) /\
  (exists ls rows r r',
     let t := ms_to_s (map Time rows) in
     let y := map Channel_1 rows in
     Radioactive_Code.fit ls t y = inr r /\
     (exists g, initial_fits.p0 t y = inr g /\
                Radioactive_Code.p0 t y = inr g /\
                initial_fits.fit ls t y g (sigma y) = inr r') /\
     (N0 r, tau r, c r) = (N0 r', tau r', c r') /\
     tau_err r = 4 /\ tau_err r' = 2).
Proof.
  split; [reflexivity |]. split; [reflexivity |]. split.
  - intros ls t y r H.
    apply Radioactive_Code_fit_inr in H. destruct H as (g & s & Hg & Hs & Hr).
    destruct (final_fit_single_guess_agrees t y g Hg)
      as (a & c0 & d & Hsc & Hp0 & Hglen).
    rewrite Hglen in Hr.
    pose proof (report_of_solution t y s (Some _) r Hr) as Hrel.
    simpl in Hrel. destruct Hrel as (Hp & Hlen & He0 & He1 & He2).
    destruct (report_succeeds t y s _ _ _ (sol_pcov s) Hp Hlen) as [r' Hr'].
    pose proof (report_of_solution t y s None r' Hr') as Habs.
    simpl in Habs. destruct Habs as (Hp' & _ & Ha0 & Ha1 & Ha2).
    exists g, s, r'. split; [exact Hg |]. split; [exact Hs |]. split.
    { unfold initial_fits.fit, curve_fit. rewrite Hs. simpl. exact Hr'. }
    split.
    { rewrite Hp in Hp'. inversion Hp'. reflexivity. }
    split.
    { assert (Hlen1 : (1 < List.length (sol_pcov s))%nat) by lia.
      destruct (fit_single_succeeds ls t y (sigma y) g s _ _ _ Hs Hp Hlen1)
        as [r'' Hr''].
      pose proof Hr'' as Hinv. apply fit_single_inr in Hinv.
      destruct Hinv as (s' & a' & ta' & c' & te & Hs' & Hp'' & Hte & Hrec).
      assert (Hss : s' = s).
      { pose proof (eq_trans (eq_sym Hs') Hs) as E. inversion E. reflexivity. }
      subst s'. rewrite Hp in Hp''. inversion Hp''; subst a' ta' c'.
      apply index_perr in Hte. destruct Hte as [_ ->].
      eexists r'', _. split.
      { rewrite (fit_of_scales _ _ _ _ _ _ _ _ Hsc).
        rewrite Hp0. exact Hr''. }
      rewrite Hrec. simpl. split; [reflexivity |]. split; [reflexivity |].
      symmetry. exact Ha1. }
    intros k i v Hi ->.
    destruct i as [| [| [| i]]]; [| | | lia]; simpl.
    + rewrite Ha0, He0. repeat split. intros Hv. apply sqrt_mult_alt. exact Hv.
    + rewrite Ha1, He1. repeat split. intros Hv. apply sqrt_mult_alt. exact Hv.
    + rewrite Ha2, He2. repeat split. intros Hv. apply sqrt_mult_alt. exact Hv.
  - destruct sample_source_fits as (r & r' & g & H1 & H2 & H3 & H4 & H5 & H6).
    exists (constant_solver single_solution), sample_rows5, r, r'.
    simpl. split; [exact H1 |]. split; [| split; [exact H5 | exact H6]].
    exists g. auto.
Qed.

Lemma absolute_sigma_convention_differs_witness :
  exists r,
    Radioactive_Code.fit (constant_solver single_solution)
      (ms_to_s (map Time sample_rows5)) (map Channel_1 sample_rows5) = inr r /\
    exists g s r',
      Radioactive_Code.p0 (ms_to_s (map Time sample_rows5))
        (map Channel_1 sample_rows5) = inr g /\
      constant_solver single_solution (star3 model)
        (ms_to_s (map Time sample_rows5)) (map Channel_1 sample_rows5) g
        (sigma (map Channel_1 sample_rows5)) bounds3 = inr s /\
      initial_fits.fit (constant_solver single_solution)
        (ms_to_s (map Time sample_rows5)) (map Channel_1 sample_rows5) g
        (sigma (map Channel_1 sample_rows5)) = inr r' /\
      (N0 r, tau r, c r) = (N0 r', tau r', c r').
Proof.
  destruct sample_source_fits as (r & _ & _ & Hr & _).
  exists r. split; [exact Hr |].
  destruct (proj1 (proj2 (proj2 absolute_sigma_convention_differs))
              _ _ _ _ Hr) as (g & s & r' & Hg & Hs & Hr' & Heq & _).
  exists g, s, r'. auto.
Defined.

(** * Further properties of the scripts *)

(** ** The decay models *)

Lemma exp_decay_le_1 (t tau : R) : 0 <= t -> 0 < tau -> exp (- t / tau) <= 1.
Proof.
  intros Ht Htau. rewrite <- exp_0.
  assert (Hneg : - t / tau <= 0).
  { unfold Rdiv. pose proof (Rinv_0_lt_compat _ Htau) as Hi.
    replace (- t * / tau) with (- (t * / tau)) by ring.
    pose proof (Rmult_le_pos _ _ Ht (Rlt_le _ _ Hi)). lra. }
  destruct Hneg as [Hlt | Heq].
  - left. apply exp_increasing. exact Hlt.
  - rewrite Heq. apply Rle_refl.
Qed.

Lemma exp_decay_antitone (t1 t2 tau : R) :
  t1 <= t2 -> 0 < tau -> exp (- t2 / tau) <= exp (- t1 / tau).
Proof.
  intros Hle Htau.
  assert (H : - t2 / tau <= - t1 / tau).
  { unfold Rdiv. pose proof (Rinv_0_lt_compat _ Htau) as Hi.
    apply Rmult_le_compat_r; lra. }
  destruct H as [Hlt | Heq].
  - left. apply exp_increasing. exact Hlt.
  - rewrite Heq. apply Rle_refl.
Qed.




(** X4. With an amplitude that is not negative and a decay time above zero,
    the single-exponential model starts at [A + c] at time 0, never rises,
    and stays between the baseline [c] and [A + c] from time 0 on. *)
Theorem model_single_decays_to_baseline (A tau c t1 t2 : R) :
  0 <= A -> 0 < tau -> 0 <= t1 -> t1 <= t2 ->
  model_single 0 A tau c = A + c /\
  c <= model_single t2 A tau c /\
  model_single t2 A tau c <= model_single t1 A tau c /\
  model_single t1 A tau c <= A + c.
Proof.
  intros HA Htau Ht1 Hle. unfold model_single.
  pose proof (exp_pos (- t2 / tau)) as Hp2.
  pose proof (exp_decay_antitone t1 t2 tau Hle Htau) as Hanti.
  pose proof (exp_decay_le_1 t1 tau Ht1 Htau) as H1.
  repeat split.
  - replace (- 0 / tau) with 0 by (field; lra). rewrite exp_0. ring.
  - pose proof (Rmult_le_pos _ _ HA (Rlt_le _ _ Hp2)). lra.
  - pose proof (Rmult_le_compat_l _ _ _ HA Hanti). lra.
  - pose proof (Rmult_le_compat_l _ _ _ HA H1). lra.
Qed.

Lemma model_single_decays_to_baseline_witness :
  0 <= 100 /\ 0 < 2 /\ 0 <= 1 /\ 1 <= 3 /\
  model_single 0 100 2 5 = 100 + 5 /\
  5 <= model_single 3 100 2 5 /\
  model_single 3 100 2 5 <= model_single 1 100 2 5 /\
  model_single 1 100 2 5 <= 100 + 5.
Proof.
  assert (HA : 0 <= 100) by lra.
  assert (Htau : 0 < 2) by lra.
  assert (Ht1 : 0 <= 1) by lra.
  assert (Hle : 1 <= 3) by lra.
  repeat (split; [assumption |]).
  exact (model_single_decays_to_baseline 100 2 5 1 3 HA Htau Ht1 Hle).
Defined.

(** ** The initial guess and the solver's box *)

Lemma min_le_max (l : array) (mx mn : R) :
  is_max mx l -> is_min mn l -> mn <= mx.
Proof.
  intros [Hin Hub] [_ Hlb]. apply Hlb. exact Hin.
Qed.

Ltac box_solve :=
  repeat (apply Forall2_cons || apply Forall2_nil); simpl;
  try exact I; lra.

(** X6. For every non-empty series the initial guess lies inside the box
    that goes to the solver with it, in each of the three fitting loops:
    the amplitude and decay-time guesses are never negative.  So the solver
    is never started from an infeasible point. *)
Theorem initial_guess_is_inside_the_bounds (t y : array) :
  y <> [] -> t <> [] ->
  (exists amp_span c_guess duration,
      final_fit.data_scales t y = inr (amp_span, c_guess, duration) /\
      forall ft,
        in_bounds (final_fit.p0 ft amp_span c_guess duration)
          (final_fit.bounds ft)) /\
  (exists g, Radioactive_Code.p0 t y = inr g /\ in_bounds g bounds3) /\
  (exists g, initial_fits.p0 t y = inr g /\ in_bounds g bounds3).
Proof.
  intros Hy Ht.
  destruct (data_scales_inr t y Hy Ht)
    as (ymax & ymin & tmax & tmin & H1 & H2 & H3 & H4 & Hmx & Hmn & Htx & Htn & Hs).
  pose proof (min_le_max y ymax ymin H1 H2) as Hyspan.
  pose proof (min_le_max t tmax tmin H3 H4) as Htspan.
  split; [| split].
  - exists (ymax - ymin), ymin, (tmax - tmin). split; [exact Hs |].
    intros ft. destruct ft; split; simpl; box_solve.
  - exists [ymax - ymin; (tmax - tmin) / 3; ymin]. split.
    + unfold Radioactive_Code.p0. rewrite Hmx, Hmn, Htx, Htn. reflexivity.
    + split; simpl; box_solve.
  - unfold initial_fits.p0, initial_fits.tau_guess.
    rewrite Hmx, Hmn, Htx, Htn. simpl.
    eexists. split; [reflexivity |].
    destruct (Rlt_dec 0 (tmax - tmin));
      split; simpl; box_solve.
Qed.

Lemma initial_guess_is_inside_the_bounds_witness :
  sample_y <> [] /\ sample_t <> [] /\
  (exists amp_span c_guess duration,
      final_fit.data_scales sample_t sample_y
        = inr (amp_span, c_guess, duration) /\
      forall ft,
        in_bounds (final_fit.p0 ft amp_span c_guess duration)
          (final_fit.bounds ft)) /\
  (exists g, Radioactive_Code.p0 sample_t sample_y = inr g /\
             in_bounds g bounds3) /\
  (exists g, initial_fits.p0 sample_t sample_y = inr g /\
             in_bounds g bounds3).
Proof.
  assert (Hy : sample_y <> []) by discriminate.
  assert (Ht : sample_t <> []) by discriminate.
  split; [exact Hy |]. split; [exact Ht |].
  exact (initial_guess_is_inside_the_bounds sample_t sample_y Hy Ht).
Defined.

(** X7. In the main loop of [final_fit.py], for a series of positive
    duration, the curve of the initial guess starts at the largest count:
    evaluated at time 0 on the guess, the single and the double model both
    give [max(y)], and at every later time a value between [min(y)] and
    [max(y)]. *)
Theorem initial_curve_spans_the_counts (t y : array) (ymax ymin tmax tmin : R) :
  is_max ymax y -> is_min ymin y -> is_max tmax t -> is_min tmin t ->
  tmin < tmax ->
  exists amp_span c_guess duration,
    final_fit.data_scales t y = inr (amp_span, c_guess, duration) /\
    forall ft,
      model_of ft 0 (final_fit.p0 ft amp_span c_guess duration) = inr ymax /\
      forall x, 0 <= x ->
        exists v,
          model_of ft x (final_fit.p0 ft amp_span c_guess duration) = inr v /\
          ymin <= v <= ymax.
Proof.
  intros H1 H2 H3 H4 Hdur.
  assert (Hy : y <> []) by (destruct H1 as [Hin _]; destruct y; [destruct Hin | discriminate]).
  assert (Ht : t <> []) by (destruct H3 as [Hin _]; destruct t; [destruct Hin | discriminate]).
  destruct (data_scales_inr t y Hy Ht)
    as (ymax' & ymin' & tmax' & tmin' & H1' & H2' & H3' & H4' & _ & _ & _ & _ & Hs).
  rewrite <- (is_max_unique y _ _ H1 H1') in Hs.
  rewrite <- (is_min_unique y _ _ H2 H2') in Hs.
  rewrite <- (is_max_unique t _ _ H3 H3') in Hs.
  rewrite <- (is_min_unique t _ _ H4 H4') in Hs.
  pose proof (min_le_max y ymax ymin H1 H2) as Hyspan.
  exists (ymax - ymin), ymin, (tmax - tmin). split; [exact Hs |].
  intros ft. destruct ft; simpl.
  - split.
    + unfold ret. f_equal.
      destruct (model_single_decays_to_baseline (ymax - ymin)
                  ((tmax - tmin) / 3) ymin 0 0) as (H0 & _); try lra.
    + intros x Hx. eexists. split; [reflexivity |].
      destruct (model_single_decays_to_baseline (ymax - ymin)
                  ((tmax - tmin) / 3) ymin x x) as (_ & Hlo & _ & Hhi); lra.
  - split.
    + unfold ret, model_double. f_equal.
      replace (- 0 / ((tmax - tmin) / 10)) with 0 by (field; lra).
      replace (- 0 / ((tmax - tmin) / 2)) with 0 by (field; lra).
      rewrite exp_0. field.
    + intros x Hx. eexists. split; [reflexivity |].
      unfold model_double.
      assert (Hd10 : 0 < (tmax - tmin) / 10) by lra.
      assert (Hd2 : 0 < (tmax - tmin) / 2) by lra.
      pose proof (exp_pos (- x / ((tmax - tmin) / 10))) as Hp1.
      pose proof (exp_pos (- x / ((tmax - tmin) / 2))) as Hp2.
      pose proof (exp_decay_le_1 x _ Hx Hd10) as Hl1.
      pose proof (exp_decay_le_1 x _ Hx Hd2) as Hl2.
      assert (Ha : 0 <= (ymax - ymin) / 2) by lra.
      pose proof (Rmult_le_pos _ _ Ha (Rlt_le _ _ Hp1)).
      pose proof (Rmult_le_pos _ _ Ha (Rlt_le _ _ Hp2)).
      pose proof (Rmult_le_compat_l _ _ _ Ha Hl1).
      pose proof (Rmult_le_compat_l _ _ _ Ha Hl2).
      lra.
Qed.

Lemma initial_curve_spans_the_counts_witness :
  is_max 7 [3; 7] /\ is_min 3 [3; 7] /\ is_max 2 [0; 2] /\ is_min 0 [0; 2] /\
  0 < 2 /\
  exists amp_span c_guess duration,
    final_fit.data_scales [0; 2] [3; 7] = inr (amp_span, c_guess, duration) /\
    forall ft,
      model_of ft 0 (final_fit.p0 ft amp_span c_guess duration) = inr 7 /\
      forall x, 0 <= x ->
        exists v,
          model_of ft x (final_fit.p0 ft amp_span c_guess duration) = inr v /\
          3 <= v <= 7.
Proof.
  assert (H1 : is_max 7 [3; 7])
    by (split; [simpl; auto | intros x [<- | [<- | []]]; lra]).
  assert (H2 : is_min 3 [3; 7])
    by (split; [simpl; auto | intros x [<- | [<- | []]]; lra]).
  assert (H3 : is_max 2 [0; 2])
    by (split; [simpl; auto | intros x [<- | [<- | []]]; lra]).
  assert (H4 : is_min 0 [0; 2])
    by (split; [simpl; auto | intros x [<- | [<- | []]]; lra]).
  assert (H5 : 0 < 2) by lra.
  repeat (split; [assumption |]).
  exact (initial_curve_spans_the_counts [0; 2] [3; 7] 7 3 2 0 H1 H2 H3 H4 H5).
Defined.

(** ** What the three scripts do with a whole batch *)

(** X8. The main loop of [final_fit.py] handles every one of its four files,
    in order and whatever the files hold or the solver does: no exception
    escapes and the figure is shown last.  What it prints and draws is, for
    the files 1 to 4 in turn (fit types single, single, double, double),
    the "Processing" line followed by "not found", or by the read error,
    or, for a file that was read, by the fit and its curve or else
    "Fit Failed" and the data alone, and then the title of that file. *)
Theorem final_fit_main_handles_every_file (ls : minimiser)
    (files : nat -> final_fit.csv_file) :
  let block := fun (i : nat) (ft : final_fit.fit_type) =>
    final_fit.PrintProcessing i ft ::
    match files i with
    | final_fit.NotFound => [final_fit.PrintNotFound i]
    | final_fit.Unreadable e => [final_fit.PrintReadError (exn_msg e)]
    | final_fit.Rows rows =>
        let t := ms_to_s (map fst rows) in
        let y := map snd rows in
        match final_fit.fit ls ft t y (sigma y) with
        | inr r =>
            [final_fit.PrintFit r;
             final_fit.PlotDataAndFit i t y (final_fit.yfit r)
               (final_fit.fitted r)]
        | inl e =>
            [final_fit.PrintFitFailed (exn_msg e);
             final_fit.PlotDataOnly i t y]
        end ++ [final_fit.SetTitle i ft]
    end in
  final_fit.main ls files
  = (block 1%nat final_fit.single ++ block 2%nat final_fit.single ++
     block 3%nat final_fit.double ++ block 4%nat final_fit.double ++
     [final_fit.Show], None).
Proof.
  intros block. rewrite final_fit_main_runs_all_channels.
  f_equal. cbn [flat_map]. rewrite app_nil_r, <- !app_assoc.
  reflexivity.
Qed.

Lemma initial_fits_p0_inr (t y : array) :
  y <> [] -> t <> [] -> exists g, initial_fits.p0 t y = inr g.
Proof.
  intros Hy Ht.
  destruct (data_scales_inr t y Hy Ht)
    as (ymax & ymin & tmax & tmin & _ & _ & _ & _ & Hmx & Hmn & Htx & Htn & _).
  unfold initial_fits.p0, initial_fits.tau_guess.
  rewrite Hmx, Hmn, Htx, Htn. simpl. eexists. reflexivity.
Qed.

Lemma initial_fits_iteration_no_escape (ls : minimiser) (t y : array)
    (i : nat) :
  y <> [] -> t <> [] ->
  exists out,
    initial_fits.iteration ls t (i, y) = (out, None) /\
    In (initial_fits.SetTitle (i + 1)) out.
Proof.
  intros Hy Ht. destruct (initial_fits_p0_inr t y Hy Ht) as [g Hg].
  unfold initial_fits.iteration. rewrite Hg.
  eexists. split; [reflexivity |].
  apply in_or_app. right. left. reflexivity.
Qed.

(** X9. The "initial fits" section of [final_fit.py] lets an exception
    escape exactly when the file has no data row: then [max(y)] raises on
    the first source before anything is printed or drawn.  With at least one
    row all four channels get their titles and the figure is shown,
    whatever the solver does. *)
Theorem initial_fits_main_escapes_only_without_rows (ls : minimiser)
    (rows : list row5) :
  (rows = [] ->
   initial_fits.main ls rows
   = ([], Some (Raise ValueError "max() arg is an empty sequence"))) /\
  (rows <> [] ->
   exists out,
     initial_fits.main ls rows = (out ++ [initial_fits.Show], None) /\
     forall i, (1 <= i <= 4)%nat -> In (initial_fits.SetTitle i) out).
Proof.
  split.
  - intros ->. reflexivity.
  - intros Hrows.
    assert (Ht : ms_to_s (map Time rows) <> [])
      by (destruct rows; [contradiction Hrows; reflexivity | discriminate]).
    assert (Hne : forall f : row5 -> R, map f rows <> [])
      by (intros f; destruct rows;
          [contradiction Hrows; reflexivity | discriminate]).
    unfold initial_fits.main, sources_of, enumerate.
    cbn [enumerate_from for_each].
    destruct (initial_fits_iteration_no_escape ls _ _ 0 (Hne Channel_1) Ht)
      as (o1 & E1 & T1).
    destruct (initial_fits_iteration_no_escape ls _ _ 1 (Hne Channel_2) Ht)
      as (o2 & E2 & T2).
    destruct (initial_fits_iteration_no_escape ls _ _ 2 (Hne Channel_3) Ht)
      as (o3 & E3 & T3).
    destruct (initial_fits_iteration_no_escape ls _ _ 3 (Hne Channel_4) Ht)
      as (o4 & E4 & T4).
    rewrite E1, E2, E3, E4. simpl.
    exists (o1 ++ o2 ++ o3 ++ o4 ++ []). split; [reflexivity |].
    intros i Hi.
    assert (Hcases : i = 1%nat \/ i = 2%nat \/ i = 3%nat \/ i = 4%nat) by lia.
    simpl in T1, T2, T3, T4.
    destruct Hcases as [-> | [-> | [-> | ->]]];
      rewrite !in_app_iff; auto 10.
Qed.

Lemma initial_fits_main_escapes_only_without_rows_witness :
  sample_rows5 <> [] /\
  exists out,
    initial_fits.main (failing_solver (Raise RuntimeError "no convergence"))
      sample_rows5 = (out ++ [initial_fits.Show], None) /\
    forall i, (1 <= i <= 4)%nat -> In (initial_fits.SetTitle i) out.
Proof.
  assert (Hrows : sample_rows5 <> []) by discriminate.
  split; [exact Hrows |].
  exact (proj2 (initial_fits_main_escapes_only_without_rows
                  (failing_solver (Raise RuntimeError "no convergence"))
                  sample_rows5) Hrows).
Defined.


(** ** Loading the CSV files *)

Lemma final_fit_read_rows_lengths (float_of : string -> option R)
    (rows : list csv_row) (tl sl tl' sl' : list R) :
  final_fit_csv.read_rows float_of rows tl sl = inr (tl', sl') ->
  List.length tl' = (List.length tl + List.length rows)%nat /\
  List.length sl' = (List.length sl + List.length rows)%nat.
Proof.
  revert tl sl. induction rows as [| row rows IH]; intros tl sl H.
  - simpl in H. inversion H. simpl. lia.
  - cbn [final_fit_csv.read_rows] in H.
    bind_inv H. bind_inv H. apply IH in H.
    rewrite !length_app in H. simpl in *. lia.
Qed.

Lemma combine_fst_snd (a b : list R) :
  List.length a = List.length b ->
  map fst (combine a b) = a /\ map snd (combine a b) = b.
Proof.
  revert b. induction a as [| x a IH]; intros [| y b]; simpl; intros H;
    try discriminate; auto.
  destruct (IH b) as [H1 H2]; [lia |]. rewrite H1, H2. auto.
Qed.

(** X11. When [final_fit.py] reads a file to its end, the time list and the
    signal list have one entry per row of the file, and they are the two
    arrays the fit gets: the loaded file is the list of the (time, signal)
    pairs. *)
Theorem final_fit_load_gives_parallel_lists (float_of : string -> option R)
    (rows : list csv_row) (time_list signal_list : list R) :
  final_fit_csv.read_rows float_of rows [] [] = inr (time_list, signal_list) ->
  List.length time_list = List.length rows /\
  List.length signal_list = List.length rows /\
  final_fit_csv.load float_of (Some rows)
  = final_fit.Rows (combine time_list signal_list) /\
  map fst (combine time_list signal_list) = time_list /\
  map snd (combine time_list signal_list) = signal_list.
Proof.
  intros H.
  destruct (final_fit_read_rows_lengths _ _ _ _ _ _ H) as [H1 H2].
  simpl in H1, H2.
  split; [exact H1 |]. split; [exact H2 |]. split.
  - unfold final_fit_csv.load. rewrite H. reflexivity.
  - apply combine_fst_snd. lia.
Qed.

Lemma final_fit_load_gives_parallel_lists_witness :
  let rows := snd (DictReader [["Time"%string; "Channel 3"%string];
                               ["0"%string; "100"%string];
                               ["1000"%string; "61"%string]]) in
  final_fit_csv.read_rows sample_float rows [] [] = inr ([0; 1000], [100; 61]) /\
  List.length [0; 1000] = List.length rows /\
  List.length [100; 61] = List.length rows /\
  final_fit_csv.load sample_float (Some rows)
  = final_fit.Rows (combine [0; 1000] [100; 61]) /\
  map fst (combine [0; 1000] [100; 61]) = [0; 1000] /\
  map snd (combine [0; 1000] [100; 61]) = [100; 61].
Proof.
  intros rows.
  assert (H : final_fit_csv.read_rows sample_float rows [] []
              = inr ([0; 1000], [100; 61])) by reflexivity.
  split; [exact H |].
  exact (final_fit_load_gives_parallel_lists sample_float rows _ _ H).
Defined.

Lemma final_fit_read_rows_bad_row (float_of : string -> option R)
    (rows : list csv_row) (row : csv_row) (tl sl : list R) :
  In row rows ->
  (exists e, float_at float_of row final_fit_csv.COL_TIME = inl e) \/
  (exists e, final_fit_csv.signal_of float_of row = inl e) ->
  exists e, final_fit_csv.read_rows float_of rows tl sl = inl e.
Proof.
  revert tl sl. induction rows as [| r rows IH]; intros tl sl Hin Hbad.
  - destruct Hin.
  - cbn [final_fit_csv.read_rows].
    destruct (float_at float_of r final_fit_csv.COL_TIME) as [e | tv] eqn:Ht.
    { exists e. reflexivity. }
    destruct (final_fit_csv.signal_of float_of r) as [e | sv] eqn:Hsig.
    { exists e. reflexivity. }
    simpl. destruct Hin as [-> | Hin].
    + destruct Hbad as [[e He] | [e He]]; congruence.
    + apply IH; assumption.
Qed.

(** X12. In [final_fit.py] one bad row discards the whole file: if any row
    lacks the time column, holds a text that is not a number, or gives no
    signal, the file counts as unreadable, and the main loop prints the
    error for that file and neither fits nor draws any of its rows. *)
Theorem final_fit_one_bad_row_discards_the_file
    (float_of : string -> option R) (rows : list csv_row) (row : csv_row) :
  In row rows ->
  (exists e, float_at float_of row final_fit_csv.COL_TIME = inl e) \/
  (exists e, final_fit_csv.signal_of float_of row = inl e) ->
  exists e,
    final_fit_csv.load float_of (Some rows) = final_fit.Unreadable e /\
    forall ls files i ft,
      final_fit.FIT_TYPES i = Some ft ->
      files i = final_fit_csv.load float_of (Some rows) ->
      final_fit.iteration ls files i
      = ([final_fit.PrintProcessing i ft;
          final_fit.PrintReadError (exn_msg e)], None).
Proof.
  intros Hin Hbad.
  destruct (final_fit_read_rows_bad_row float_of rows row [] [] Hin Hbad)
    as [e He].
  exists e.
  assert (Hload : final_fit_csv.load float_of (Some rows)
                  = final_fit.Unreadable e)
    by (unfold final_fit_csv.load; rewrite He; reflexivity).
  split; [exact Hload |].
  intros ls files i ft Hft Hfile.
  unfold final_fit.iteration. rewrite Hft, Hfile, Hload. reflexivity.
Qed.

Lemma final_fit_one_bad_row_discards_the_file_witness :
  let rows := snd (DictReader [["Time"%string; "Signal"%string];
                               ["0"%string; "100"%string];
                               ["1000"%string; "n/a"%string]]) in
  let row := dict_of ["Time"%string; "Signal"%string]
               ["1000"%string; "n/a"%string] in
  In row rows /\
  exists e,
    final_fit_csv.load sample_float (Some rows) = final_fit.Unreadable e /\
    forall ls files i ft,
      final_fit.FIT_TYPES i = Some ft ->
      files i = final_fit_csv.load sample_float (Some rows) ->
      final_fit.iteration ls files i
      = ([final_fit.PrintProcessing i ft;
          final_fit.PrintReadError (exn_msg e)], None).
Proof.
  intros rows row.
  assert (Hin : In row rows) by (right; left; reflexivity).
  split; [exact Hin |].
  apply (final_fit_one_bad_row_discards_the_file sample_float rows row Hin).
  right. eexists. reflexivity.
Defined.

Lemma linearize_all_read_rows_lengths (float_of : string -> option R)
    (time_col data_col : string) (rows : list csv_row)
    (tl cl tl' cl' : list R) :
  linearize_all.read_rows float_of time_col data_col rows tl cl
  = ((tl', cl'), None) ->
  (List.length tl' + List.length cl
   = List.length cl' + List.length tl
     + List.length (filter (torn float_of time_col data_col) rows))%nat.
Proof.
  revert tl cl. induction rows as [| row rows IH]; intros tl cl H.
  - simpl in H. inversion H. simpl. lia.
  - cbn [linearize_all.read_rows] in H. cbn [filter]. unfold torn at 1.
    destruct (float_at float_of row time_col) as [e | tv].
    + destruct (is_ValueError e); [| discriminate].
      apply IH in H. exact H.
    + destruct (float_at float_of row data_col) as [e | dv].
      * destruct (is_ValueError e); [| discriminate].
        apply IH in H. rewrite length_app in H. simpl in *. lia.
      * apply IH in H. rewrite !length_app in H. simpl in *. lia.
Qed.

(** X13. [linearize_all.py] skips a row on [ValueError], but only after it
    may have kept the row's time.  When it reads a file to the end, the time
    list is longer than the count list by the number of rows whose time
    converts and whose count does not; the two lists are of one length
    exactly when there is no such row. *)
Theorem linearize_all_lists_differ_by_torn_rows
    (float_of : string -> option R) (time_col data_col : string)
    (rows : list csv_row) (time_list counts_list : list R) :
  linearize_all.read_rows float_of time_col data_col rows [] []
  = ((time_list, counts_list), None) ->
  List.length time_list
  = (List.length counts_list
     + List.length (filter (torn float_of time_col data_col) rows))%nat /\
  (List.length time_list = List.length counts_list <->
   forall row, In row rows -> torn float_of time_col data_col row = false).
Proof.
  intros H. apply linearize_all_read_rows_lengths in H. simpl in H.
  split; [lia |].
  split.
  - intros Heq row Hin.
    destruct (torn float_of time_col data_col row) eqn:Htorn; [| reflexivity].
    assert (Hf : In row (filter (torn float_of time_col data_col) rows))
      by (apply filter_In; split; assumption).
    destruct (filter (torn float_of time_col data_col) rows);
      [destruct Hf | simpl in H; lia].
  - intros Hnone.
    assert (Hf : filter (torn float_of time_col data_col) rows = []).
    { clear H. induction rows as [| r rows IH]; [reflexivity |].
      simpl. rewrite (Hnone r (or_introl eq_refl)).
      apply IH. intros row Hin. apply Hnone. right. exact Hin. }
    rewrite Hf in H. simpl in H. lia.
Qed.

Lemma linearize_all_lists_differ_by_torn_rows_witness :
  let rows := snd (DictReader [["Time"%string; "Channel 3"%string];
                               ["0"%string; "100"%string];
                               ["1000"%string; "n/a"%string]]) in
  linearize_all.read_rows sample_float "Time" "Channel 3" rows [] []
  = (([0; 1000], [100]), None) /\
  List.length [0; 1000]
  = (List.length [100]
     + List.length (filter (torn sample_float "Time" "Channel 3") rows))%nat /\
  (List.length [0; 1000] = List.length [100] <->
   forall row, In row rows -> torn sample_float "Time" "Channel 3" row = false).
Proof.
  intros rows.
  assert (H : linearize_all.read_rows sample_float "Time" "Channel 3" rows [] []
              = (([0; 1000], [100]), None)) by reflexivity.
  split; [exact H |].
  exact (linearize_all_lists_differ_by_torn_rows sample_float _ _ rows _ _ H).
Defined.

Lemma linearize_single_read_rows_agree (float_of : string -> option R)
    (time_col data_col : string) (rows : list csv_row)
    (tl cl tl' cl' : list R) :
  linearize_single.read_rows float_of time_col data_col rows tl cl
  = inr (tl', cl') ->
  linearize_all.read_rows float_of time_col data_col rows tl cl
  = ((tl', cl'), None) /\
  List.length tl' = (List.length tl + List.length rows)%nat /\
  List.length cl' = (List.length cl + List.length rows)%nat.
Proof.
  revert tl cl. induction rows as [| row rows IH]; intros tl cl H.
  - simpl in H. inversion H. simpl. repeat split; lia.
  - cbn [linearize_single.read_rows] in H.
    cbn [linearize_all.read_rows].
    bind_inv H. bind_inv H. rewrite Hx, Hx0.
    apply IH in H. destruct H as (Hall & H1 & H2).
    rewrite !length_app in *. simpl in *.
    split; [exact Hall | lia].
Qed.

(** X14. Whenever [linearize_single.py] reads a file, [linearize_all.py]
    reads the same two lists from it and prints no error; both lists then
    have one entry per data row of the file. *)
Theorem linearize_single_and_all_read_the_same
    (float_of : string -> option R) (file : list (list string))
    (time_list counts_list : list R) :
  linearize_single.load float_of file = inr (time_list, counts_list) ->
  linearize_all.load float_of file = ((time_list, counts_list), None) /\
  List.length time_list = List.length (snd (DictReader file)) /\
  List.length counts_list = List.length (snd (DictReader file)).
Proof.
  unfold linearize_single.load, linearize_all.load.
  destruct (DictReader file) as [headers rows]. simpl.
  destruct headers as [[| time_col [| data_col more]] |]; try discriminate.
  intros H. apply linearize_single_read_rows_agree in H. exact H.
Qed.

Lemma linearize_single_and_all_read_the_same_witness :
  let file := [["Time"%string; "Channel 3"%string];
               ["0"%string; "100"%string]; [];
               ["1000"%string; "61"%string]] in
  linearize_single.load sample_float file = inr ([0; 1000], [100; 61]) /\
  linearize_all.load sample_float file = (([0; 1000], [100; 61]), None) /\
  List.length [0; 1000] = List.length (snd (DictReader file)) /\
  List.length [100; 61] = List.length (snd (DictReader file)).
Proof.
  intros file.
  assert (H : linearize_single.load sample_float file
              = inr ([0; 1000], [100; 61])) by reflexivity.
  split; [exact H |].
  exact (linearize_single_and_all_read_the_same sample_float file _ _ H).
Defined.

Lemma four_channels_read_rows_spec (float_of : string -> option R)
    (kt k1 k2 k3 k4 : string) (rows : list csv_row)
    (acc cols : four_channels.columns) :
  four_channels.read_rows float_of kt k1 k2 k3 k4 rows acc = inr cols ->
  exists rows5,
    List.length rows5 = List.length rows /\
    four_channels.time_list cols
    = four_channels.time_list acc ++ map Time rows5 /\
    four_channels.s1 cols = four_channels.s1 acc ++ map Channel_1 rows5 /\
    four_channels.s2 cols = four_channels.s2 acc ++ map Channel_2 rows5 /\
    four_channels.s3 cols = four_channels.s3 acc ++ map Channel_3 rows5 /\
    four_channels.s4 cols = four_channels.s4 acc ++ map Channel_4 rows5.
Proof.
  revert acc. induction rows as [| row rows IH]; intros acc H.
  - simpl in H. inversion H. exists []. simpl. rewrite !app_nil_r. auto 10.
  - cbn [four_channels.read_rows] in H.
    bind_inv H. bind_inv H. bind_inv H. bind_inv H. bind_inv H.
    apply IH in H. destruct H as (rows5 & Hlen & Ht & H1 & H2 & H3 & H4).
    simpl in Ht, H1, H2, H3, H4.
    exists (Row5 x x0 x1 x2 x3 :: rows5). simpl.
    rewrite Ht, H1, H2, H3, H4, <- !app_assoc. simpl. auto 10.
Qed.

Lemma rows_of_columns (rows5 : list row5) :
  four_channels.rows_of (map Time rows5) (map Channel_1 rows5)
    (map Channel_2 rows5) (map Channel_3 rows5) (map Channel_4 rows5)
  = rows5.
Proof.
  induction rows5 as [| [t0 a b c d] rows5 IH]; simpl; [reflexivity |].
  rewrite IH. reflexivity.
Qed.

(** X15. When [Radioactive_Code.py] or the "initial fits" section reads its
    file to the end, the time list and the four source lists all have one
    entry per data row: they are the five columns of one list of rows, the
    one the fitting loop then works on, so the time array and every source
    array are of one length. *)
Theorem four_channel_load_gives_parallel_columns
    (float_of : string -> option R) (file : list (list string))
    (cols : four_channels.columns) :
  four_channels.Radioactive_Code_load float_of file = inr cols \/
  four_channels.initial_fits_load float_of file = inr cols ->
  let rows5 := four_channels.rows_of (four_channels.time_list cols)
                 (four_channels.s1 cols) (four_channels.s2 cols)
                 (four_channels.s3 cols) (four_channels.s4 cols) in
  List.length rows5 = List.length (snd (DictReader file)) /\
  four_channels.time_list cols = map Time rows5 /\
  sources_of rows5
  = [four_channels.s1 cols; four_channels.s2 cols;
     four_channels.s3 cols; four_channels.s4 cols].
Proof.
  intros H.
  assert (Hspec : exists rows5,
             List.length rows5 = List.length (snd (DictReader file)) /\
             four_channels.time_list cols = map Time rows5 /\
             four_channels.s1 cols = map Channel_1 rows5 /\
             four_channels.s2 cols = map Channel_2 rows5 /\
             four_channels.s3 cols = map Channel_3 rows5 /\
             four_channels.s4 cols = map Channel_4 rows5).
  { destruct H as [H | H];
      apply four_channels_read_rows_spec in H; simpl in H; exact H. }
  destruct Hspec as (rows5 & Hlen & Ht & H1 & H2 & H3 & H4).
  simpl. rewrite Ht, H1, H2, H3, H4, rows_of_columns.
  unfold sources_of. auto.
Qed.

Lemma four_channel_load_gives_parallel_columns_witness :
  let file := [["Time"%string; "Channel 1"%string; "Channel 2"%string;
                "Channel 3"%string; "Channel 4"%string];
               ["0"%string; "100"%string; "61"%string; "100"%string;
                "61"%string]] in
  let cols := four_channels.Columns [0] [100] [61] [100] [61] in
  four_channels.initial_fits_load sample_float file = inr cols /\
  List.length (four_channels.rows_of [0] [100] [61] [100] [61])
  = List.length (snd (DictReader file)) /\
  [0] = map Time (four_channels.rows_of [0] [100] [61] [100] [61]) /\
  sources_of (four_channels.rows_of [0] [100] [61] [100] [61])
  = [[100]; [61]; [100]; [61]].
Proof.
  intros file cols.
  assert (H : four_channels.initial_fits_load sample_float file = inr cols)
    by reflexivity.
  split; [exact H |].
  exact (four_channel_load_gives_parallel_columns sample_float file cols
           (or_intror H)).
Defined.

(** ** Lines of the serial port *)

Section text_facts.

Variable isspace : Ascii.ascii -> bool.

Lemma has_space_append (a b : string) :
  has_space isspace (String.append a b)
  = has_space isspace a || has_space isspace b.
Proof.
  induction a as [| ch a IH]; simpl; [reflexivity |].
  rewrite IH. apply orb_assoc.
Qed.

Lemma is_empty_append (a : string) (ch : Ascii.ascii) :
  is_empty (String.append a (String ch EmptyString)) = false.
Proof. destruct a; reflexivity. Qed.

Lemma split_from_tokens (s word : string) :
  has_space isspace word = false ->
  Forall (fun tok => is_empty tok = false /\ has_space isspace tok = false)
    (split_from isspace word s).
Proof.
  revert word. induction s as [| ch s IH]; intros word Hword; simpl.
  - destruct word; simpl; [constructor |].
    constructor; [split; [reflexivity | exact Hword] | constructor].
  - destruct (isspace ch) eqn:Hch.
    + destruct word as [| c w]; simpl.
      * apply IH. reflexivity.
      * constructor; [split; [reflexivity | exact Hword] |].
        apply IH. reflexivity.
    + apply IH. rewrite has_space_append, Hword. simpl. rewrite Hch.
      reflexivity.
Qed.

Lemma split_from_nonempty (s word : string) :
  is_empty word = false -> split_from isspace word s <> [].
Proof.
  revert word. induction s as [| ch s IH]; intros word Hword; simpl.
  - rewrite Hword. discriminate.
  - destruct (isspace ch).
    + rewrite Hword. discriminate.
    + apply IH. apply is_empty_append.
Qed.

Lemma split_lstrip (s : string) :
  split isspace (lstrip isspace s) = split isspace s.
Proof.
  unfold split. induction s as [| ch s IH]; simpl; [reflexivity |].
  destruct (isspace ch) eqn:Hch; simpl.
  - exact IH.
  - rewrite Hch. reflexivity.
Qed.

Lemma split_from_rstrip (s word : string) :
  split_from isspace word (rstrip isspace s) = split_from isspace word s.
Proof.
  revert word. induction s as [| ch s IH]; intros word; [reflexivity |].
  cbn [rstrip].
  destruct (rstrip isspace s) as [| k kept] eqn:Hr.
  - assert (Hs : forall w, split_from isspace w s
                           = split_from isspace w EmptyString)
      by (intros w; rewrite <- IH; reflexivity).
    destruct (isspace ch) eqn:Hch; cbn [split_from]; rewrite Hch.
    + rewrite !Hs. simpl. destruct (is_empty word); reflexivity.
    + rewrite Hs. reflexivity.
  - set (r := String k kept) in *. cbn [split_from].
    destruct (isspace ch); [destruct (is_empty word) |];
      rewrite ?IH; reflexivity.
Qed.

Lemma lstrip_head (s rest : string) (ch : Ascii.ascii) :
  lstrip isspace s = String ch rest -> isspace ch = false.
Proof.
  induction s as [| c s IH]; simpl; [discriminate |].
  destruct (isspace c) eqn:Hc; [exact IH |].
  intros H. inversion H; subst. exact Hc.
Qed.

Lemma rstrip_head (s rest : string) (ch : Ascii.ascii) :
  rstrip isspace s = String ch rest -> exists rest', s = String ch rest'.
Proof.
  destruct s as [| c s]; simpl; [discriminate |].
  destruct (rstrip isspace s).
  - destruct (isspace c); [discriminate |].
    intros H. inversion H; subst. eexists. reflexivity.
  - intros H. inversion H; subst. eexists. reflexivity.
Qed.

Lemma split_strip (s : string) :
  split isspace (strip isspace s) = split isspace s.
Proof.
  unfold strip, split. rewrite split_from_rstrip. apply split_lstrip.
Qed.

Lemma strip_empty_iff (s : string) :
  is_empty (strip isspace s) = true <-> split isspace s = [].
Proof.
  rewrite <- split_strip.
  destruct (strip isspace s) as [| ch rest] eqn:Hs; simpl.
  - split; reflexivity.
  - split; [discriminate |].
    intros H. exfalso.
    unfold strip in Hs.
    destruct (rstrip_head _ _ _ Hs) as [rest' Hl].
    apply lstrip_head in Hl.
    unfold split in H. simpl in H. rewrite Hl in H.
    revert H. apply split_from_nonempty. reflexivity.
Qed.

(** A token of [str.split()] is never empty and holds no whitespace. *)
Lemma split_tokens_hold_no_whitespace (s : string) :
  Forall (fun tok => is_empty tok = false /\ has_space isspace tok = false)
    (split isspace s).
Proof.
  apply split_from_tokens. reflexivity.
Qed.

End text_facts.

(** ** What the loggers write *)

Lemma read_all_on_line_rows (isspace : Ascii.ascii -> bool) (line : string) :
  read_all_from_arduino.csv_file (read_all_from_arduino.on_line isspace line)
  = if (5 <=? List.length (split isspace line))%nat
    then [firstn 5 (split isspace line)] else [].
Proof.
  unfold read_all_from_arduino.on_line.
  rewrite split_strip.
  destruct (is_empty (strip isspace line)) eqn:He.
  - apply strip_empty_iff in He. rewrite He. reflexivity.
  - destruct (5 <=? List.length (split isspace line))%nat; reflexivity.
Qed.

Lemma csv_file_all_app (a b : list read_all_from_arduino.event) :
  read_all_from_arduino.csv_file (a ++ b)
  = read_all_from_arduino.csv_file a ++ read_all_from_arduino.csv_file b.
Proof. unfold read_all_from_arduino.csv_file. apply flat_map_app. Qed.

Lemma read_all_loop_rows (isspace : Ascii.ascii -> bool) (lines : list string) :
  read_all_from_arduino.csv_file
    (flat_map (read_all_from_arduino.on_line isspace) lines)
  = map (firstn 5) (accepted isspace lines).
Proof.
  unfold accepted. induction lines as [| line lines IH]; [reflexivity |].
  cbn [flat_map map filter].
  rewrite csv_file_all_app, read_all_on_line_rows, IH.
  destruct (5 <=? List.length (split isspace line))%nat; reflexivity.
Qed.

Lemma read_all_file (isspace : Ascii.ascii -> bool) (lines : list string)
    (how : stop) :
  read_all_from_arduino.csv_file
    (read_all_from_arduino.log_serial_data_to_csv isspace (inr (lines, how)))
  = read_all_from_arduino.HEADER :: map (firstn 5) (accepted isspace lines).
Proof.
  unfold read_all_from_arduino.log_serial_data_to_csv.
  rewrite !csv_file_all_app, read_all_loop_rows.
  destruct how; simpl; rewrite app_nil_r; reflexivity.
Qed.

Lemma accepted_long (isspace : Ascii.ascii -> bool) (lines : list string)
    (cols : list string) :
  In cols (accepted isspace lines) -> (5 <= List.length cols)%nat.
Proof.
  unfold accepted. intros H. apply filter_In in H. destruct H as [_ H].
  apply Nat.leb_le. exact H.
Qed.

(** X16. The file that [read_all_from_arduino.py] leaves holds the header
    and then, for each line of five tokens or more and in the order read,
    the first five tokens; shorter lines and empty reads write nothing.
    Every row of the file, the header included, has exactly five fields,
    and if the port could not be opened nothing is written. *)
Theorem read_all_writes_five_fields_per_row (isspace : Ascii.ascii -> bool)
    (session : string + list string * stop) :
  let file := read_all_from_arduino.csv_file
                (read_all_from_arduino.log_serial_data_to_csv isspace session)
  in
  Forall (fun row => List.length row = 5%nat) file /\
  match session with
  | inl _ => file = []
  | inr (lines, _) =>
      file = read_all_from_arduino.HEADER
             :: map (firstn 5) (accepted isspace lines)
  end.
Proof.
  destruct session as [msg | [lines how]]; cbv zeta.
  - simpl. split; [constructor | reflexivity].
  - rewrite read_all_file. split; [| reflexivity].
    constructor; [reflexivity |].
    apply Forall_forall. intros row Hin.
    apply in_map_iff in Hin. destruct Hin as (cols & <- & Hcols).
    apply accepted_long in Hcols.
    rewrite length_firstn. lia.
Qed.

Lemma py_index_in_range {X : Type} (l : list X) (i : Z) (d : X) :
  (0 <= i < Z.of_nat (List.length l))%Z ->
  py_index l i = inr (nth (Z.to_nat i) l d).
Proof.
  intros [H0 Hn]. unfold py_index.
  destruct (Z.ltb_spec i 0) as [Hneg | _]; [lia |].
  destruct (Z.leb_spec 0 i) as [_ | Hneg]; [| lia].
  destruct (Z.ltb_spec i (Z.of_nat (List.length l))) as [_ | Hge]; [| lia].
  simpl.
  assert (Hlt : (Z.to_nat i < List.length l)%nat) by lia.
  destruct (nth_error l (Z.to_nat i)) as [x |] eqn:Hx.
  - unfold ret. f_equal. symmetry. apply nth_error_nth. exact Hx.
  - apply nth_error_None in Hx. lia.
Qed.

Lemma csv_file_single_app (a b : list read_single_from_arduino.event) :
  read_single_from_arduino.csv_file (a ++ b)
  = read_single_from_arduino.csv_file a
    ++ read_single_from_arduino.csv_file b.
Proof. unfold read_single_from_arduino.csv_file. apply flat_map_app. Qed.

Lemma read_single_on_line (isspace : Ascii.ascii -> bool) (channel_num : Z)
    (line : string) :
  (1 <= channel_num <= 4)%Z ->
  exists out,
    read_single_from_arduino.on_line isspace channel_num line = (out, None) /\
    read_single_from_arduino.csv_file out
    = if (5 <=? List.length (split isspace line))%nat
      then [picked channel_num (split isspace line)] else [].
Proof.
  intros Hk. unfold read_single_from_arduino.on_line.
  rewrite split_strip.
  destruct (is_empty (strip isspace line)) eqn:He.
  - apply strip_empty_iff in He. rewrite He.
    eexists. split; reflexivity.
  - destruct (Nat.leb_spec 5 (List.length (split isspace line))) as [Hlen | Hlen].
    + rewrite (py_index_in_range _ 0 EmptyString) by lia.
      rewrite (py_index_in_range _ channel_num EmptyString) by lia.
      simpl. eexists. split; reflexivity.
    + eexists. split; reflexivity.
Qed.

Lemma read_single_loop (isspace : Ascii.ascii -> bool) (channel_num : Z)
    (lines : list string) :
  (1 <= channel_num <= 4)%Z ->
  exists out,
    for_each (read_single_from_arduino.on_line isspace channel_num) lines
    = (out, None) /\
    read_single_from_arduino.csv_file out
    = map (picked channel_num) (accepted isspace lines).
Proof.
  intros Hk. unfold accepted.
  induction lines as [| line lines IH]; cbn [for_each map filter].
  - exists []. split; reflexivity.
  - destruct (read_single_on_line isspace channel_num line Hk)
      as (o1 & E1 & F1).
    destruct IH as (o2 & E2 & F2).
    rewrite E1, E2. exists (o1 ++ o2). split; [reflexivity |].
    rewrite csv_file_single_app, F1, F2.
    destruct (5 <=? List.length (split isspace line))%nat; reflexivity.
Qed.

Lemma read_single_file (isspace : Ascii.ascii -> bool) (channel_num : Z)
    (lines : list string) (how : stop) :
  (1 <= channel_num <= 4)%Z ->
  exists out,
    read_single_from_arduino.log_serial_data_to_csv isspace channel_num
      (inr (lines, how)) = (out, None) /\
    read_single_from_arduino.csv_file out
    = read_single_from_arduino.header channel_num
      :: map (picked channel_num) (accepted isspace lines).
Proof.
  intros Hk. unfold read_single_from_arduino.log_serial_data_to_csv.
  destruct (Z.ltb_spec channel_num 1) as [Hlo | _]; [lia |].
  destruct (Z.ltb_spec 4 channel_num) as [Hhi | _]; [lia |].
  cbn [orb].
  destruct (read_single_loop isspace channel_num lines Hk) as (o & E & F).
  rewrite E. eexists. split; [reflexivity |].
  rewrite !csv_file_single_app, F.
  destruct how; simpl; rewrite app_nil_r; reflexivity.
Qed.

Lemma firstn_Forall {X : Type} (P : X -> Prop) (n : nat) (l : list X) :
  Forall P l -> Forall P (firstn n l).
Proof.
  intros H. revert n. induction H as [| x l Hx _ IH]; intros [| n]; simpl;
    constructor; auto.
Qed.

Lemma nth_Forall_string (P : string -> Prop) (l : list string) (i : nat) :
  (i < List.length l)%nat -> Forall P l -> P (nth i l EmptyString).
Proof.
  intros Hi H. rewrite Forall_forall in H. apply H. apply nth_In. exact Hi.
Qed.

(** X17. No field of a data row that the loggers write is empty or holds
    whitespace (a blank, a tab, a line break): in the file of
    [read_all_from_arduino.py] and, for a channel from 1 to 4, in the file
    of [read_single_from_arduino.py], every field after the header row is
    a whole token of the line it came from. *)
Theorem logged_fields_hold_no_whitespace (isspace : Ascii.ascii -> bool)
    (lines : list string) (how : stop) :
  let clean := fun tok => is_empty tok = false /\
                          has_space isspace tok = false in
  Forall (Forall clean)
    (tl (read_all_from_arduino.csv_file
           (read_all_from_arduino.log_serial_data_to_csv isspace
              (inr (lines, how))))) /\
  forall channel_num, (1 <= channel_num <= 4)%Z ->
    exists out,
      read_single_from_arduino.log_serial_data_to_csv isspace channel_num
        (inr (lines, how)) = (out, None) /\
      Forall (Forall clean) (tl (read_single_from_arduino.csv_file out)).
Proof.
  intros clean.
  assert (Hacc : forall cols, In cols (accepted isspace lines) ->
                              Forall clean cols).
  { intros cols Hin. unfold accepted in Hin. apply filter_In in Hin.
    destruct Hin as [Hin _]. apply in_map_iff in Hin.
    destruct Hin as (line & <- & _).
    apply split_tokens_hold_no_whitespace. }
  split.
  - rewrite read_all_file. cbn [tl].
    apply Forall_forall. intros row Hin.
    apply in_map_iff in Hin. destruct Hin as (cols & <- & Hcols).
    apply firstn_Forall. apply Hacc. exact Hcols.
  - intros channel_num Hk.
    destruct (read_single_file isspace channel_num lines how Hk)
      as (out & E & F).
    exists out. split; [exact E |]. rewrite F. cbn [tl].
    apply Forall_forall. intros row Hin.
    apply in_map_iff in Hin. destruct Hin as (cols & <- & Hcols).
    pose proof (accepted_long _ _ _ Hcols) as Hlen.
    pose proof (Hacc cols Hcols) as Hclean.
    unfold picked.
    constructor; [| constructor; [| constructor]];
      apply (nth_Forall_string clean); try exact Hclean; lia.
Qed.

(** X18. [read_single_from_arduino.py] with a channel from 1 to 4 never
    fails on a line: since a line is used only with five tokens or more,
    [cols[channel_num]] is always in range.  The file it leaves holds the
    header and then, for each such line, its first token and its token
    number [channel_num]; every row has two fields.  With any other channel
    the script prints the error and leaves at once: no port is opened and
    no file is written. *)
Theorem read_single_writes_time_and_channel (isspace : Ascii.ascii -> bool)
    (channel_num : Z) (lines : list string) (how : stop) :
  ((1 <= channel_num <= 4)%Z ->
   exists out,
     read_single_from_arduino.log_serial_data_to_csv isspace channel_num
       (inr (lines, how)) = (out, None) /\
     read_single_from_arduino.csv_file out
     = read_single_from_arduino.header channel_num
       :: map (picked channel_num) (accepted isspace lines) /\
     Forall (fun row => List.length row = 2%nat)
       (read_single_from_arduino.csv_file out)) /\
  ((channel_num < 1 \/ 4 < channel_num)%Z ->
   forall session,
     read_single_from_arduino.log_serial_data_to_csv isspace channel_num
       session = ([read_single_from_arduino.PrintChannelError], None)).
Proof.
  split.
  - intros Hk.
    destruct (read_single_file isspace channel_num lines how Hk)
      as (out & E & F).
    exists out. split; [exact E |]. split; [exact F |].
    rewrite F. constructor; [reflexivity |].
    apply Forall_forall. intros row Hin.
    apply in_map_iff in Hin. destruct Hin as (cols & <- & _). reflexivity.
  - intros Hk session.
    unfold read_single_from_arduino.log_serial_data_to_csv.
    destruct (Z.ltb_spec channel_num 1) as [_ | Hlo]; [reflexivity |].
    destruct (Z.ltb_spec 4 channel_num) as [_ | Hhi]; [reflexivity | lia].
Qed.

Lemma read_single_writes_time_and_channel_witness :
  (1 <= 3 <= 4)%Z /\
  exists out,
    read_single_from_arduino.log_serial_data_to_csv sample_isspace 3
      (inr (sample_lines, KeyboardInterrupt)) = (out, None) /\
    read_single_from_arduino.csv_file out
    = read_single_from_arduino.header 3
      :: map (picked 3) (accepted sample_isspace sample_lines) /\
    Forall (fun row => List.length row = 2%nat)
      (read_single_from_arduino.csv_file out).
Proof.
  assert (Hk : (1 <= 3 <= 4)%Z) by lia.
  split; [exact Hk |].
  exact (proj1 (read_single_writes_time_and_channel sample_isspace 3
                  sample_lines KeyboardInterrupt) Hk).
Defined.

Lemma nth_firstn {X : Type} (l : list X) (n i : nat) (d : X) :
  (i < n)%nat -> nth i (firstn n l) d = nth i l d.
Proof.
  revert n i. induction l as [| x l IH]; intros [| n] [| i] H; simpl;
    try reflexivity; try lia.
  apply IH. lia.
Qed.

(** X19. The two loggers agree: on the same lines, the data rows of the
    single-channel file are the rows of the four-channel file cut down to
    the time and to the selected channel, so column [channel_num] of the
    one is the second column of the other. *)
Theorem loggers_agree_on_the_selected_channel (isspace : Ascii.ascii -> bool)
    (channel_num : Z) (lines : list string) (how how' : stop) :
  (1 <= channel_num <= 4)%Z ->
  exists out,
    read_single_from_arduino.log_serial_data_to_csv isspace channel_num
      (inr (lines, how)) = (out, None) /\
    tl (read_single_from_arduino.csv_file out)
    = map (picked channel_num)
        (tl (read_all_from_arduino.csv_file
               (read_all_from_arduino.log_serial_data_to_csv isspace
                  (inr (lines, how'))))).
Proof.
  intros Hk.
  destruct (read_single_file isspace channel_num lines how Hk)
    as (out & E & F).
  exists out. split; [exact E |].
  rewrite F, read_all_file. cbn [tl]. rewrite map_map.
  apply map_ext_in. intros cols Hin.
  unfold picked. rewrite !nth_firstn by lia. reflexivity.
Qed.

Lemma loggers_agree_on_the_selected_channel_witness :
  (1 <= 2 <= 4)%Z /\
  exists out,
    read_single_from_arduino.log_serial_data_to_csv sample_isspace 2
      (inr (sample_lines, KeyboardInterrupt)) = (out, None) /\
    tl (read_single_from_arduino.csv_file out)
    = map (picked 2)
        (tl (read_all_from_arduino.csv_file
               (read_all_from_arduino.log_serial_data_to_csv sample_isspace
                  (inr (sample_lines, SerialException "unplugged"))))).
Proof.
  assert (Hk : (1 <= 2 <= 4)%Z) by lia.
  split; [exact Hk |].
  exact (loggers_agree_on_the_selected_channel sample_isspace 2 sample_lines
           KeyboardInterrupt (SerialException "unplugged") Hk).
Defined.

(** ** From the loggers' files to the fitting scripts *)

Lemma filter_nonblank_id (rows : list (list string)) :
  Forall (fun row => row <> []) rows ->
  filter (fun r : list string => match r with [] => false | _ => true end) rows
  = rows.
Proof.
  induction 1 as [| row rows Hrow _ IH]; simpl; [reflexivity |].
  destruct row; [contradiction Hrow; reflexivity |].
  rewrite IH. reflexivity.
Qed.

Lemma combine_map_fst_snd (pairs : list (R * R)) :
  combine (map fst pairs) (map snd pairs) = pairs.
Proof.
  induction pairs as [| [a b] pairs IH]; simpl; [reflexivity |].
  rewrite IH. reflexivity.
Qed.

Lemma channel_header_eq (channel_num : Z) :
  read_single_from_arduino.header channel_num
  = ["Time"%string;
     String (Ascii.ascii_of_nat 67)
       (String.append "hannel "
          (DecimalString.NilZero.string_of_int (Z.to_int channel_num)))].
Proof. reflexivity. Qed.

Lemma two_column_row (float_of : string -> option R) (name c0 ck : string) :
  let key := String (Ascii.ascii_of_nat 67) name in
  let row := dict_of ["Time"%string; key] [c0; ck] in
  float_at float_of row final_fit_csv.COL_TIME = py_float float_of (Text c0) /\
  final_fit_csv.signal_of float_of row = py_float float_of (Text ck) /\
  getitem row (Some final_fit_csv.COL_SIGNAL) = inl (Raise KeyError "Signal").
Proof.
  intros key row. subst row key.
  split; [reflexivity |]. split; [| reflexivity].
  unfold final_fit_csv.signal_of, float_at. simpl.
  rewrite String.eqb_refl. reflexivity.
Qed.

Lemma final_fit_reads_two_columns (float_of : string -> option R)
    (name : string) (fields : list (string * string)) (pairs : list (R * R))
    (tl sl : list R) :
  Forall2 (fun cs p => float_of (fst cs) = Some (fst p) /\
                       float_of (snd cs) = Some (snd p)) fields pairs ->
  final_fit_csv.read_rows float_of
    (map (fun cs => dict_of ["Time"%string; String (Ascii.ascii_of_nat 67) name]
                      [fst cs; snd cs]) fields) tl sl
  = inr (tl ++ map fst pairs, sl ++ map snd pairs).
Proof.
  intros H. revert tl sl.
  induction H as [| [c0 ck] [a b] fields pairs [Ha Hb] _ IH]; intros tl sl.
  - simpl. rewrite !app_nil_r. reflexivity.
  - cbn [map final_fit_csv.read_rows fst snd].
    destruct (two_column_row float_of name c0 ck) as (Ht & Hs & _).
    cbv zeta in Ht, Hs. rewrite Ht, Hs. simpl in Ha, Hb. simpl.
    rewrite Ha, Hb. simpl. rewrite IH, <- !app_assoc. reflexivity.
Qed.

(** X20. A file written by [read_single_from_arduino.py] loads in
    [final_fit.py] through the fallback: no row has a "Signal" column, so
    the signal is read from the second column, the selected channel.  If
    the first token and the channel's token of every logged line convert,
    the loaded file is the list of those (time, count) pairs. *)
Theorem single_channel_file_loads_in_final_fit
    (isspace : Ascii.ascii -> bool) (float_of : string -> option R)
    (channel_num : Z) (lines : list string) (how : stop)
    (pairs : list (R * R)) :
  (1 <= channel_num <= 4)%Z ->
  Forall2 (fun cols p =>
             float_of (nth 0 cols EmptyString) = Some (fst p) /\
             float_of (nth (Z.to_nat channel_num) cols EmptyString)
             = Some (snd p))
    (accepted isspace lines) pairs ->
  exists out,
    read_single_from_arduino.log_serial_data_to_csv isspace channel_num
      (inr (lines, how)) = (out, None) /\
    let rows := snd (DictReader (read_single_from_arduino.csv_file out)) in
    final_fit_csv.load float_of (Some rows) = final_fit.Rows pairs /\
    forall row, In row rows ->
      getitem row (Some final_fit_csv.COL_SIGNAL)
      = inl (Raise KeyError "Signal").
Proof.
  intros Hk Hconv.
  destruct (read_single_file isspace channel_num lines how Hk)
    as (out & E & F).
  exists out. split; [exact E |].
  rewrite F, channel_header_eq. cbn [DictReader snd].
  rewrite filter_nonblank_id
    by (apply Forall_forall; intros row Hin;
        apply in_map_iff in Hin; destruct Hin as (cols & <- & _);
        discriminate).
  rewrite map_map.
  set (name := String.append "hannel "
                 (DecimalString.NilZero.string_of_int (Z.to_int channel_num))).
  split.
  - unfold final_fit_csv.load.
    assert (Hmap :
      map (fun x => dict_of
             ["Time"%string; String (Ascii.ascii_of_nat 67) name]
             (picked channel_num x)) (accepted isspace lines)
      = map (fun cs => dict_of
               ["Time"%string; String (Ascii.ascii_of_nat 67) name]
               [fst cs; snd cs])
          (map (fun cols => (nth 0 cols EmptyString,
                             nth (Z.to_nat channel_num) cols EmptyString))
             (accepted isspace lines)))
      by (rewrite map_map; reflexivity).
    rewrite Hmap.
    rewrite (final_fit_reads_two_columns float_of name _ pairs [] []).
    + simpl. rewrite combine_map_fst_snd. reflexivity.
    + clear -Hconv. induction Hconv; simpl; constructor; auto.
  - intros row Hin. apply in_map_iff in Hin.
    destruct Hin as (cols & <- & _).
    apply (two_column_row float_of name).
Qed.

Lemma sample_lines_accepted :
  accepted sample_isspace sample_lines
  = [["0"%string; "100"%string; "61"%string; "100"%string; "61"%string];
     ["1000"%string; "61"%string; "100"%string; "61"%string; "100"%string]].
Proof. reflexivity. Qed.

Lemma single_channel_file_loads_in_final_fit_witness :
  (1 <= 1 <= 4)%Z /\
  Forall2 (fun cols p =>
             sample_float (nth 0 cols EmptyString) = Some (fst p) /\
             sample_float (nth (Z.to_nat 1) cols EmptyString) = Some (snd p))
    (accepted sample_isspace sample_lines) [(0, 100); (1000, 61)] /\
  exists out,
    read_single_from_arduino.log_serial_data_to_csv sample_isspace 1
      (inr (sample_lines, KeyboardInterrupt)) = (out, None) /\
    let rows := snd (DictReader (read_single_from_arduino.csv_file out)) in
    final_fit_csv.load sample_float (Some rows)
    = final_fit.Rows [(0, 100); (1000, 61)] /\
    forall row, In row rows ->
      getitem row (Some final_fit_csv.COL_SIGNAL)
      = inl (Raise KeyError "Signal").
Proof.
  assert (Hk : (1 <= 1 <= 4)%Z) by lia.
  assert (Hconv : Forall2 (fun cols p =>
             sample_float (nth 0 cols EmptyString) = Some (fst p) /\
             sample_float (nth (Z.to_nat 1) cols EmptyString) = Some (snd p))
    (accepted sample_isspace sample_lines) [(0, 100); (1000, 61)]).
  { rewrite sample_lines_accepted.
    repeat constructor. }
  split; [exact Hk |]. split; [exact Hconv |].
  exact (single_channel_file_loads_in_final_fit sample_isspace sample_float 1
           sample_lines KeyboardInterrupt _ Hk Hconv).
Defined.

Lemma five_column_row (float_of : string -> option R)
    (a b c d e : string) :
  let row := dict_of read_all_from_arduino.HEADER [a; b; c; d; e] in
  float_at float_of row "Time" = py_float float_of (Text a) /\
  float_at float_of row "Channel 1" = py_float float_of (Text b) /\
  float_at float_of row "Channel 2" = py_float float_of (Text c) /\
  float_at float_of row "Channel 3" = py_float float_of (Text d) /\
  float_at float_of row "Channel 4" = py_float float_of (Text e) /\
  float_at float_of row "Time [ms]" = inl (Raise KeyError "Time [ms]").
Proof. repeat split. Qed.

Lemma firstn_5 (cols : list string) :
  (5 <= List.length cols)%nat ->
  firstn 5 cols
  = [nth 0 cols EmptyString; nth 1 cols EmptyString; nth 2 cols EmptyString;
     nth 3 cols EmptyString; nth 4 cols EmptyString].
Proof.
  destruct cols as [| a [| b [| c [| d [| e rest]]]]]; simpl; intros H;
    try lia.
  reflexivity.
Qed.

Lemma initial_fits_reads_five_columns (float_of : string -> option R)
    (accepted_cols : list (list string)) (rows5 : list row5)
    (acc : four_channels.columns) :
  Forall (fun cols => (5 <= List.length cols)%nat) accepted_cols ->
  Forall2 (fun cols r =>
             float_of (nth 0 cols EmptyString) = Some (Time r) /\
             float_of (nth 1 cols EmptyString) = Some (Channel_1 r) /\
             float_of (nth 2 cols EmptyString) = Some (Channel_2 r) /\
             float_of (nth 3 cols EmptyString) = Some (Channel_3 r) /\
             float_of (nth 4 cols EmptyString) = Some (Channel_4 r))
    accepted_cols rows5 ->
  four_channels.read_rows float_of
    "Time" "Channel 1" "Channel 2" "Channel 3" "Channel 4"
    (map (fun cols => dict_of read_all_from_arduino.HEADER (firstn 5 cols))
       accepted_cols) acc
  = inr (four_channels.Columns
           (four_channels.time_list acc ++ map Time rows5)
           (four_channels.s1 acc ++ map Channel_1 rows5)
           (four_channels.s2 acc ++ map Channel_2 rows5)
           (four_channels.s3 acc ++ map Channel_3 rows5)
           (four_channels.s4 acc ++ map Channel_4 rows5)).
Proof.
  intros Hlong H. revert acc.
  induction H as [| cols r accepted_cols rows5 Hr _ IH]; intros acc.
  - simpl. rewrite !app_nil_r. destruct acc. reflexivity.
  - inversion Hlong as [| ? ? Hlen Hrest]; subst.
    destruct Hr as (H0 & H1 & H2 & H3 & H4).
    cbn [map four_channels.read_rows].
    rewrite (firstn_5 cols Hlen).
    destruct (five_column_row float_of (nth 0 cols EmptyString)
                (nth 1 cols EmptyString) (nth 2 cols EmptyString)
                (nth 3 cols EmptyString) (nth 4 cols EmptyString))
      as (F0 & F1 & F2 & F3 & F4 & _).
    cbv zeta in F0, F1, F2, F3, F4.
    rewrite F0, F1, F2, F3, F4. simpl py_float.
    rewrite H0, H1, H2, H3, H4. cbn [bind ret].
    rewrite (IH Hrest). cbn [four_channels.time_list four_channels.s1
      four_channels.s2 four_channels.s3 four_channels.s4 map].
    rewrite <- !app_assoc. reflexivity.
Qed.

Lemma read_all_rows (isspace : Ascii.ascii -> bool) (lines : list string)
    (how : stop) :
  snd (DictReader
         (read_all_from_arduino.csv_file
            (read_all_from_arduino.log_serial_data_to_csv isspace
               (inr (lines, how)))))
  = map (fun cols => dict_of read_all_from_arduino.HEADER (firstn 5 cols))
      (accepted isspace lines).
Proof.
  rewrite read_all_file. cbn [DictReader snd].
  rewrite filter_nonblank_id.
  - apply map_map.
  - apply Forall_forall. intros row Hin.
    apply in_map_iff in Hin. destruct Hin as (cols & <- & Hcols).
    apply accepted_long in Hcols.
    destruct cols; [simpl in Hcols; lia | discriminate].
Qed.

(** X21. A file written by [read_all_from_arduino.py] has the columns that
    the "initial fits" section of [final_fit.py] asks for.  If the first
    five tokens of every logged line convert, the section reads the file
    to the end, and its time list and four source lists are the columns of
    the converted rows, in the order logged. *)
Theorem four_channel_file_loads_in_initial_fits
    (isspace : Ascii.ascii -> bool) (float_of : string -> option R)
    (lines : list string) (how : stop) (rows5 : list row5) :
  Forall2 (fun cols r =>
             float_of (nth 0 cols EmptyString) = Some (Time r) /\
             float_of (nth 1 cols EmptyString) = Some (Channel_1 r) /\
             float_of (nth 2 cols EmptyString) = Some (Channel_2 r) /\
             float_of (nth 3 cols EmptyString) = Some (Channel_3 r) /\
             float_of (nth 4 cols EmptyString) = Some (Channel_4 r))
    (accepted isspace lines) rows5 ->
  four_channels.initial_fits_load float_of
    (read_all_from_arduino.csv_file
       (read_all_from_arduino.log_serial_data_to_csv isspace
          (inr (lines, how))))
  = inr (four_channels.Columns (map Time rows5) (map Channel_1 rows5)
           (map Channel_2 rows5) (map Channel_3 rows5) (map Channel_4 rows5)).
Proof.
  intros Hconv. unfold four_channels.initial_fits_load.
  rewrite read_all_rows.
  rewrite (initial_fits_reads_five_columns float_of _ rows5); [reflexivity | |].
  - apply Forall_forall. intros cols Hin. eapply accepted_long. exact Hin.
  - exact Hconv.
Qed.

Lemma four_channel_file_loads_in_initial_fits_witness :
  let rows5 := [Row5 0 100 61 100 61; Row5 1000 61 100 61 100] in
  Forall2 (fun cols r =>
             sample_float (nth 0 cols EmptyString) = Some (Time r) /\
             sample_float (nth 1 cols EmptyString) = Some (Channel_1 r) /\
             sample_float (nth 2 cols EmptyString) = Some (Channel_2 r) /\
             sample_float (nth 3 cols EmptyString) = Some (Channel_3 r) /\
             sample_float (nth 4 cols EmptyString) = Some (Channel_4 r))
    (accepted sample_isspace sample_lines) rows5 /\
  four_channels.initial_fits_load sample_float
    (read_all_from_arduino.csv_file
       (read_all_from_arduino.log_serial_data_to_csv sample_isspace
          (inr (sample_lines, KeyboardInterrupt))))
  = inr (four_channels.Columns (map Time rows5) (map Channel_1 rows5)
           (map Channel_2 rows5) (map Channel_3 rows5) (map Channel_4 rows5)).
Proof.
  intros rows5.
  assert (Hconv : Forall2 (fun cols r =>
             sample_float (nth 0 cols EmptyString) = Some (Time r) /\
             sample_float (nth 1 cols EmptyString) = Some (Channel_1 r) /\
             sample_float (nth 2 cols EmptyString) = Some (Channel_2 r) /\
             sample_float (nth 3 cols EmptyString) = Some (Channel_3 r) /\
             sample_float (nth 4 cols EmptyString) = Some (Channel_4 r))
    (accepted sample_isspace sample_lines) rows5).
  { rewrite sample_lines_accepted. repeat constructor. }
  split; [exact Hconv |].
  exact (four_channel_file_loads_in_initial_fits sample_isspace sample_float
           sample_lines KeyboardInterrupt rows5 Hconv).
Defined.

(** X22. [Radioactive_Code.py] cannot read a file written by
    [read_all_from_arduino.py]: it asks for the column "Time [ms]", which
    the logger's header does not have, so as soon as the file holds one
    logged line the first row raises [KeyError] and nothing is fitted. *)
Theorem four_channel_file_fails_in_Radioactive_Code
    (isspace : Ascii.ascii -> bool) (float_of : string -> option R)
    (lines : list string) (how : stop) :
  accepted isspace lines <> [] ->
  four_channels.Radioactive_Code_load float_of
    (read_all_from_arduino.csv_file
       (read_all_from_arduino.log_serial_data_to_csv isspace
          (inr (lines, how))))
  = inl (Raise KeyError "Time [ms]").
Proof.
  intros Hne. unfold four_channels.Radioactive_Code_load.
  rewrite read_all_rows.
  destruct (accepted isspace lines) as [| cols more] eqn:Hacc;
    [contradiction Hne; reflexivity |].
  assert (Hlen : (5 <= List.length cols)%nat).
  { apply (accepted_long isspace lines). rewrite Hacc. left. reflexivity. }
  cbn [map four_channels.read_rows].
  rewrite (firstn_5 cols Hlen).
  destruct (five_column_row float_of (nth 0 cols EmptyString)
              (nth 1 cols EmptyString) (nth 2 cols EmptyString)
              (nth 3 cols EmptyString) (nth 4 cols EmptyString))
    as (_ & _ & _ & _ & _ & F).
  cbv zeta in F. rewrite F. reflexivity.
Qed.

Lemma four_channel_file_fails_in_Radioactive_Code_witness :
  accepted sample_isspace sample_lines <> [] /\
  four_channels.Radioactive_Code_load sample_float
    (read_all_from_arduino.csv_file
       (read_all_from_arduino.log_serial_data_to_csv sample_isspace
          (inr (sample_lines, KeyboardInterrupt))))
  = inl (Raise KeyError "Time [ms]").
Proof.
  assert (Hne : accepted sample_isspace sample_lines <> [])
    by (rewrite sample_lines_accepted; discriminate).
  split; [exact Hne |].
  exact (four_channel_file_fails_in_Radioactive_Code sample_isspace
           sample_float sample_lines KeyboardInterrupt Hne).
Defined.
